(** * Verification of the validator-kit configuration and CLI layer

    Shallow embedding of [config.py] (module [ConfigPy]) and of the command
    handlers of [decloud/cli.py] (module [Cli]), with the properties of the
    specification stated over them. *)

From Stdlib Require Import ZArith Floats Ascii String.
From stdpp Require Import gmap strings list fin_maps.

Set Warnings "-register-all".

Local Open Scope Z_scope.
Local Open Scope string_scope.

(** ** Python values

    The attributes of a configuration object are not typed at run time: what
    [json.load] finds in the file is what the attribute holds.  [pyval] is
    the universe of values that [json.load] can return, which is also the
    universe that [json.dump] accepts. *)

Inductive pyval : Type :=
| PNone
| PBool (b : bool)
| PInt (z : Z)
| PFloat (f : float)
| PStr (s : string)
| PList (l : list pyval)
| PDict (d : gmap string pyval).

(** Truth value of an object, as tested by [if], [not] and [or]. *)
Definition truthy (v : pyval) : bool :=
  match v with
  | PNone => false
  | PBool b => b
  | PInt z => negb (Z.eqb z 0)
  | PFloat f => negb (PrimFloat.eqb f 0%float)
  | PStr s => negb (String.eqb s "")
  | PList l => match l with [] => false | _ => true end
  | PDict d => match map_to_list d with [] => false | _ => true end
  end.

(** [a or b] on values that are already evaluated. *)
Definition py_or (a b : pyval) : pyval := if truthy a then a else b.

(** Optional command-line and environment values: [None] when absent. *)
Definition of_opt_str (o : option string) : pyval :=
  match o with Some s => PStr s | None => PNone end.

Definition of_opt_float (o : option float) : pyval :=
  match o with Some f => PFloat f | None => PNone end.

(** [x == s] for a string [s]: only an equal string compares equal. *)
Definition py_eq_str (x : pyval) (s : string) : bool :=
  match x with
  | PStr s' => String.eqb s' s
  | _ => false
  end.

(** [needle in hay] on two strings: substring test. *)
Definition str_contains (needle hay : string) : bool :=
  match String.index 0 needle hay with
  | Some _ => true
  | None => false
  end.

(** [str.lower] on the ASCII letters.  Bytes above 127 (the UTF-8 encoding of
    the other code points) are left alone; no code point outside ASCII
    lower-cases to an ASCII letter other than [k] or [i]. *)
Definition ascii_lower (c : ascii) : ascii :=
  let n := nat_of_ascii c in
  if (Nat.leb 65 n && Nat.leb n 90)%bool then ascii_of_nat (n + 32) else c.

Fixpoint lower (s : string) : string :=
  match s with
  | EmptyString => EmptyString
  | String c s' => String (ascii_lower c) (lower s')
  end.

(** ** Exceptions and state

    A computation runs on a state, may change it, and either returns or
    raises; what was written before a raise stays written. *)

Inductive exn : Type :=
| AttributeError
| TypeError
| KeyError
| ValueError
| Exception (msg : string).

Inductive outcome (A : Type) : Type :=
| Ret (a : A)
| Raise (e : exn).
Arguments Ret {A} a.
Arguments Raise {A} e.

Definition M (S A : Type) : Type := S -> outcome A * S.

#[global] Instance M_ret {S} : MRet (M S) := fun A a s => (Ret a, s).

#[global] Instance M_bind {S} : MBind (M S) := fun A B k m s =>
  match m s with
  | (Ret a, s') => k a s'
  | (Raise e, s') => (Raise e, s')
  end.

Definition raise {S A} (e : exn) : M S A := fun s => (Raise e, s).

Definition lift {S A} (o : outcome A) : M S A := fun s => (o, s).

Definition gets {S A} (f : S -> A) : M S A := fun s => (Ret (f s), s).

Definition modify {S} (f : S -> S) : M S unit := fun s => (Ret tt, f s).

(** [try: body  except Exception as e: handler e] *)
Definition try_except {S A} (body : M S A) (handler : exn -> M S A) : M S A := fun s =>
  match body s with
  | (Ret a, s') => (Ret a, s')
  | (Raise e, s') => handler e s'
  end.

(** ** Python dictionaries

    A [dict] is a finite map; a dict display or comprehension inserts its
    entries from left to right, so a later entry with the same key wins. *)

Definition dict_of_items `{Countable K} {V} (items : list (K * V)) : gmap K V :=
  fold_left (fun d kv => <[kv.1 := kv.2]> d) items ∅.

(** [d.get(key, default)] *)
Definition dict_get `{Countable K} {V} (d : gmap K V) (key : K) (default : V) : V :=
  match d !! key with
  | Some v => v
  | None => default
  end.

(** [d[key]] *)
Definition dict_item `{Countable K} {V} (d : gmap K V) (key : K) : outcome V :=
  match d !! key with
  | Some v => Ret v
  | None => Raise KeyError
  end.

(** [data.get(key, default)] on whatever [json.load] returned: only a dict
    has a [get] method. *)
Definition py_get (data : pyval) (key : string) (default : pyval) : outcome pyval :=
  match data with
  | PDict d => Ret (dict_get d key default)
  | _ => Raise AttributeError
  end.

(** [name in container] for a string [name]. *)
Definition py_in (name : string) (container : pyval) : outcome bool :=
  match container with
  | PList l => Ret (existsb (fun x => py_eq_str x name) l)
  | PStr s => Ret (str_contains name s)
  | PDict d => Ret (bool_decide (is_Some (d !! name)))
  | PNone | PBool _ | PInt _ | PFloat _ => Raise TypeError
  end.

Module ConfigPy.

(** *** [config.py]: the dataset catalogue *)

(** The entries of the [DATASETS] display, in source order. *)
Definition DATASETS_items : list (string * Z) :=
  [ ("Cifar10", 0); ("Cifar100", 1); ("Mnist", 2); ("FashionMnist", 3); ("Emnist", 4);
    ("Kmnist", 5); ("Food101", 6); ("Flowers102", 7); ("StanfordDogs", 8); ("StanfordCars", 9);
    ("OxfordPets", 10); ("CatsVsDogs", 11); ("Eurosat", 12); ("Svhn", 13); ("Caltech101", 14);
    ("Caltech256", 15); ("Imdb", 16); ("Sst2", 17); ("Sst5", 18); ("YelpReviews", 19);
    ("AmazonPolarity", 20); ("RottenTomatoes", 21); ("FinancialSentiment", 22); ("TweetSentiment", 23);
    ("AgNews", 24); ("Dbpedia", 25); ("YahooAnswers", 26); ("TwentyNewsgroups", 27);
    ("SmsSpam", 28); ("HateSpeech", 29); ("CivilComments", 30); ("Toxicity", 31);
    ("ClincIntent", 32); ("Banking77", 33); ("SnipsIntent", 34); ("Conll2003", 35);
    ("Wnut17", 36); ("Squad", 37); ("SquadV2", 38); ("TriviaQa", 39); ("BoolQ", 40);
    ("CommonsenseQa", 41); ("Stsb", 42); ("Mrpc", 43); ("Qqp", 44); ("Snli", 45);
    ("Mnli", 46); ("CnnDailymail", 47); ("Xsum", 48); ("Samsum", 49); ("SpeechCommands", 50);
    ("Librispeech", 51); ("CommonVoice", 52); ("Gtzan", 53); ("Esc50", 54); ("Urbansound8k", 55);
    ("Nsynth", 56); ("Ravdess", 57); ("CremaD", 58); ("Iemocap", 59); ("Iris", 60);
    ("Wine", 61); ("Diabetes", 62); ("BreastCancer", 63); ("CaliforniaHousing", 64);
    ("AdultIncome", 65); ("BankMarketing", 66); ("CreditDefault", 67); ("Titanic", 68);
    ("HeartDisease", 69); ("ChestXray", 70); ("SkinCancer", 71); ("DiabeticRetinopathy", 72);
    ("BrainTumor", 73); ("Malaria", 74); ("BloodCells", 75); ("CovidXray", 76);
    ("PubmedQa", 77); ("MedQa", 78); ("Electricity", 79); ("Weather", 80); ("StockPrices", 81);
    ("EcgHeartbeat", 82); ("CodeSearchNet", 83); ("Humaneval", 84); ("Mbpp", 85);
    ("Spider", 86); ("Cora", 87); ("Citeseer", 88); ("Qm9", 89); ("NslKdd", 90);
    ("CreditCardFraud", 91); ("Phishing", 92); ("Movielens1m", 93); ("Movielens100k", 94);
    ("Xnli", 95); ("AmazonReviewsMulti", 96); ("Sberquad", 97) ].

Definition DATASETS : gmap string Z := dict_of_items DATASETS_items.

(** [{v: k for k, v in DATASETS.items()}]: the items are visited in
    insertion order, which is the order of the display since no name is
    repeated in it (lemma [DATASETS_items_NoDup] below). *)
Definition DATASET_ID_TO_NAME : gmap Z string :=
  dict_of_items (map (fun kv => (kv.2, kv.1)) DATASETS_items).


(** *** [config.py]: endpoints *)

Definition RPC_ENDPOINTS : gmap string string :=
  dict_of_items
    [ ("devnet", "https://api.devnet.solana.com");
      ("mainnet", "https://api.mainnet-beta.solana.com");
      ("testnet", "https://api.testnet.solana.com") ].

(** *** [config.py]: class [Config] *)

Record Config : Type := {
  private_key : pyval;
  network : pyval;
  installed_datasets : pyval;
  auto_validate : pyval;
  poll_interval : pyval;
  validation_batch_size : pyval;
  max_concurrent_validations : pyval
}.

(** The state a method runs on: the object, and the JSON document held by
    [CONFIG_FILE] ([None] when the file does not exist).  [json.dump]
    followed by [json.load] is the identity on [pyval], so the document is
    kept as the value it denotes. *)
Record state : Type := {
  self : Config;
  CONFIG_FILE : option pyval
}.

Definition meth (A : Type) : Type := M state A.

Definition set_self (f : Config -> Config) : meth unit :=
  modify (fun st => {| self := f (self st); CONFIG_FILE := CONFIG_FILE st |}).

Definition set_private_key (v : pyval) (c : Config) : Config :=
  {| private_key := v; network := network c; installed_datasets := installed_datasets c;
     auto_validate := auto_validate c; poll_interval := poll_interval c;
     validation_batch_size := validation_batch_size c;
     max_concurrent_validations := max_concurrent_validations c |}.

Definition set_network (v : pyval) (c : Config) : Config :=
  {| private_key := private_key c; network := v; installed_datasets := installed_datasets c;
     auto_validate := auto_validate c; poll_interval := poll_interval c;
     validation_batch_size := validation_batch_size c;
     max_concurrent_validations := max_concurrent_validations c |}.

Definition set_installed_datasets (v : pyval) (c : Config) : Config :=
  {| private_key := private_key c; network := network c; installed_datasets := v;
     auto_validate := auto_validate c; poll_interval := poll_interval c;
     validation_batch_size := validation_batch_size c;
     max_concurrent_validations := max_concurrent_validations c |}.

Definition set_auto_validate (v : pyval) (c : Config) : Config :=
  {| private_key := private_key c; network := network c; installed_datasets := installed_datasets c;
     auto_validate := v; poll_interval := poll_interval c;
     validation_batch_size := validation_batch_size c;
     max_concurrent_validations := max_concurrent_validations c |}.

Definition set_poll_interval (v : pyval) (c : Config) : Config :=
  {| private_key := private_key c; network := network c; installed_datasets := installed_datasets c;
     auto_validate := auto_validate c; poll_interval := v;
     validation_batch_size := validation_batch_size c;
     max_concurrent_validations := max_concurrent_validations c |}.

Definition set_validation_batch_size (v : pyval) (c : Config) : Config :=
  {| private_key := private_key c; network := network c; installed_datasets := installed_datasets c;
     auto_validate := auto_validate c; poll_interval := poll_interval c;
     validation_batch_size := v;
     max_concurrent_validations := max_concurrent_validations c |}.

Definition set_max_concurrent_validations (v : pyval) (c : Config) : Config :=
  {| private_key := private_key c; network := network c; installed_datasets := installed_datasets c;
     auto_validate := auto_validate c; poll_interval := poll_interval c;
     validation_batch_size := validation_batch_size c;
     max_concurrent_validations := v |}.

(** [_ensure_dirs] creates four directories; it neither reads nor writes
    [CONFIG_FILE]. *)
Definition _ensure_dirs : meth unit := mret tt.

Definition _load : meth unit :=
  file ← gets CONFIG_FILE;
  match file with
  | None => mret tt
  | Some data =>
      v ← lift (py_get data "private_key" PNone); set_self (set_private_key v);;
      v ← lift (py_get data "network" (PStr "devnet")); set_self (set_network v);;
      v ← lift (py_get data "installed_datasets" (PList [])); set_self (set_installed_datasets v);;
      v ← lift (py_get data "auto_validate" (PBool true)); set_self (set_auto_validate v);;
      v ← lift (py_get data "poll_interval" (PInt 30)); set_self (set_poll_interval v);;
      v ← lift (py_get data "validation_batch_size" (PInt 1000)); set_self (set_validation_batch_size v);;
      v ← lift (py_get data "max_concurrent_validations" (PInt 3));
      set_self (set_max_concurrent_validations v)
  end.

Definition __init__ : meth unit :=
  set_self (set_private_key PNone);;
  set_self (set_network (PStr "mainnet"));;
  set_self (set_installed_datasets (PList []));;
  set_self (set_auto_validate (PBool true));;
  set_self (set_poll_interval (PInt 30));;
  set_self (set_validation_batch_size (PInt 1000));;
  set_self (set_max_concurrent_validations (PInt 3));;
  _ensure_dirs;;
  _load.

(** The entries of the dict that [save] builds, in source order. *)
Definition save_items (c : Config) : list (string * pyval) :=
  [ ("private_key", private_key c);
    ("network", network c);
    ("installed_datasets", installed_datasets c);
    ("auto_validate", auto_validate c);
    ("poll_interval", poll_interval c);
    ("validation_batch_size", validation_batch_size c);
    ("max_concurrent_validations", max_concurrent_validations c) ].

Definition save : meth unit :=
  c ← gets self;
  let data := dict_of_items (save_items c) in
  modify (fun st => {| self := self st; CONFIG_FILE := Some (PDict data) |}).

(** Property [rpc_url].  The key of a dict lookup must be hashable: a list
    or a dict is not. *)
Definition rpc_url : meth string :=
  c ← gets self;
  default ← lift (dict_item RPC_ENDPOINTS "devnet");
  match network c with
  | PStr name => mret (dict_get RPC_ENDPOINTS name default)
  | PList _ | PDict _ => raise TypeError
  | PNone | PBool _ | PInt _ | PFloat _ => mret default
  end.

Definition is_dataset_installed (dataset_name : string) : meth bool :=
  c ← gets self;
  lift (py_in dataset_name (installed_datasets c)).

(** An object before [__init__] has run: every attribute is assigned by
    [__init__] before anything reads it. *)
Definition blank : Config :=
  {| private_key := PNone; network := PNone; installed_datasets := PNone;
     auto_validate := PNone; poll_interval := PNone; validation_batch_size := PNone;
     max_concurrent_validations := PNone |}.

(** [Config()] *)
Definition new_Config (file : option pyval) : outcome unit * state :=
  __init__ {| self := blank; CONFIG_FILE := file |}.

End ConfigPy.

Module Round.

(** A round as the command handlers read it (the fields [cli.py] accesses).
    [status] is a plain string compared against literals. *)
Record t : Type := {
  id : Z;
  status : string;
  dataset : string;
  reward_amount : Z;
  trainers_count : Z;
  submissions_count : Z;
  creator : string;
  validator : string
}.

End Round.

Module Cli.

(** *** [decloud/cli.py]: what a handler does to the outside world *)

(** What [console.print] shows, without the markup. *)
Inductive message : Type :=
| Banner
| PanelAuthenticationRequired
| PanelValidatorStarting (public_key : string) (config : gmap string pyval)
| MsgListening
| MsgSet (key : string) (value : pyval)
| MsgUnknownConfigKey (key : string)
| MsgNotLoggedIn
| MsgAborting (round_id : Z)
| MsgRoundNotFound (round_id : Z)
| MsgNotValidator
| MsgCannotAbort (status : string)
| PanelRoundAborted (round_id : Z) (tx : string)
| MsgError (e : exn).

(** The calls a handler makes on the console, on its validator object and on
    its configuration object ([Save]: [config.save()], with the attributes
    the object holds at that moment). *)
Inductive event : Type :=
| ConsolePrint (m : message)
| NewValidator (config : gmap string pyval)
| Login (private_key : pyval)
| GetAllRounds
| AbortRound (round_id : Z) (creator : string)
| Start
| Save (config : gmap string pyval).

(** The behaviour of a [Validator] object (class [Validator] lives in
    [decloud/validator.py]): what each call answers.  [login_public_key] is
    the value of [validator.public_key] once [login] has returned. *)
Record ValidatorApi : Type := {
  login_result : pyval -> outcome bool;
  login_public_key : pyval -> option string;
  all_rounds : outcome (list Round.t);
  abort_result : Z -> string -> outcome string;
  start_result : outcome unit
}.

(** The state a handler runs on: the [public_key] attribute of its
    validator object ([None] until a login) and the calls made so far. *)
Record world : Type := {
  public_key : option string;
  trace : list event
}.

Definition emit (e : event) : M world unit :=
  modify (fun w => {| public_key := public_key w; trace := trace w ++ [e] |}).

Definition print (m : message) : M world unit := emit (ConsolePrint m).

(** Parsed arguments of [decloud validate start]. *)
Record StartArgs : Type := {
  private_key : option string;
  min_reward : option float;
  max_reward : option float;
  dataset : option string;
  dry_run : bool;
  no_websocket : bool;
  no_auto_claim : bool
}.

(** Parsed arguments of [decloud config set]. *)
Record SetArgs : Type := {
  key : string;
  value : string
}.

(** Parsed arguments of [decloud abort]. *)
Record AbortArgs : Type := {
  round_id : Z
}.

(** A configuration object of [decloud/config.py], seen through
    [hasattr], [getattr] and [setattr]: its instance attributes by name. *)
Definition getattr {S} (config : gmap string pyval) (name : string) : M S pyval :=
  match config !! name with
  | Some v => mret v
  | None => raise AttributeError
  end.

Definition setattr (config : gmap string pyval) (name : string) (v : pyval)
  : gmap string pyval := <[name := v]> config.

(** An attribute of the configuration object as [hasattr] and [getattr]
    find it: a value, or something that is not a value (a method such as
    [save], a property, [__class__]) and whose type is none of bool, int
    and float.  For those, [assign] tells what
    [setattr] with a string does: [None], the string is stored on the object
    and hides the attribute from then on; [Some e], the assignment raises
    [e] (a property without a setter, [__class__]). *)
Inductive attribute : Type :=
| Data (v : pyval)
| Other (assign : option exn).

(** The attributes of an object that hold a value. *)
Definition data_of (object : gmap string attribute) : gmap string pyval :=
  omap (fun a => match a with Data v => Some v | Other _ => None end) object.

(** The statuses [cmd_abort] accepts. *)
Definition abortable : list string := ["waitingTrainers"; "training"; "validating"].

(** The statuses after which a round changes no more. *)
Definition terminal : list string := ["completed"; "cancelled"; "expired"].

(** A handler is the body of one process: it starts with no validator logged
    in and nothing done yet.  [run] gives what it returns and the calls it
    made, in order. *)
Definition fresh : world := {| public_key := None; trace := [] |}.

Definition run {A} (m : M world A) : outcome A * list event :=
  ((m fresh).1, trace (m fresh).2).

Section Handlers.

(** The built-in conversions [int] and [float] on a string ([None]: the
    call raises [ValueError]); the objects that [Config.load()] and
    [Config.from_env()] return; the process environment; and the behaviour
    of the object that [Validator(config)] constructs. *)
Context (py_int : string -> option Z) (py_float : string -> option float).
Context (Config_load Config_from_env : gmap string pyval).
Context (environ : gmap string string).
Context (Validator : gmap string pyval -> ValidatorApi).

(** The object that [Config.load()] returns, with every attribute that
    [hasattr] finds on it, its methods included. *)
Context (Config_load_object : gmap string attribute).

Definition getenv (name : string) : pyval := of_opt_str (environ !! name).

Definition new_Validator (config : gmap string pyval) : M world ValidatorApi :=
  emit (NewValidator config);;
  modify (fun w => {| public_key := None; trace := trace w |});;
  mret (Validator config).

Definition login (validator : ValidatorApi) (private_key : pyval) : M world bool :=
  emit (Login private_key);;
  modify (fun w => {| public_key := login_public_key validator private_key;
                      trace := trace w |});;
  lift (login_result validator private_key).

Definition get_all_rounds (validator : ValidatorApi) : M world (list Round.t) :=
  emit GetAllRounds;;
  lift (all_rounds validator).

Definition abort_round (validator : ValidatorApi) (round_id : Z) (creator : string)
  : M world string :=
  emit (AbortRound round_id creator);;
  lift (abort_result validator round_id creator).

Definition start (validator : ValidatorApi) : M world unit :=
  emit Start;;
  lift (start_result validator).

Definition config_save (config : gmap string pyval) : M world unit :=
  emit (Save config).

(** The first block of [cmd_validate_start]: command-line values written
    over the loaded configuration. *)
Definition apply_cli_args (args : StartArgs) (config : gmap string pyval)
  : gmap string pyval :=
  let config :=
    if truthy (of_opt_float (min_reward args))
    then setattr config "min_reward" (of_opt_float (min_reward args)) else config in
  let config :=
    if truthy (of_opt_float (max_reward args))
    then setattr config "max_reward" (of_opt_float (max_reward args)) else config in
  let config :=
    if truthy (of_opt_str (dataset args))
    then setattr config "allowed_datasets" (PList [of_opt_str (dataset args)]) else config in
  let config :=
    if no_websocket args then setattr config "use_websocket" (PBool false) else config in
  let config :=
    if dry_run args then setattr config "dry_run" (PBool true) else config in
  let config :=
    if no_auto_claim args then setattr config "auto_claim" (PBool false) else config in
  config.

(** The panel printed before the start shows the first 40 characters of the
    validator's public key, its balance, and five attributes read from the
    configuration, in the order below; it is kept as that key prefix and
    that configuration. *)
Definition cmd_validate_start (args : StartArgs) : M world Z :=
  let config := apply_cli_args args Config_from_env in
  private_key ←
    (if truthy (of_opt_str (private_key args)) then mret (of_opt_str (private_key args))
     else
       stored ← getattr config "private_key";
       mret (py_or stored (getenv "DECLOUD_PRIVATE_KEY")));
  if negb (truthy private_key) then
    print PanelAuthenticationRequired;;
    mret 1
  else
    validator ← new_Validator config;
    print Banner;;
    ok ← login validator private_key;
    if negb ok then mret 1
    else
      getattr config "dry_run";;
      pk ← gets public_key;
      match pk with
      | None => raise TypeError
      | Some pk =>
          getattr config "network";;
          getattr config "min_reward";;
          getattr config "max_reward";;
          getattr config "allowed_datasets";;
          print (PanelValidatorStarting (String.substring 0 40 pk) config);;
          print MsgListening;;
          start validator;;
          mret 0
      end.

(** [config.save()] on the object with all its attributes: the name [save]
    must be found and must not hold a value, which cannot be called. *)
Definition object_save (object : gmap string attribute) : M world unit :=
  match object !! "save" with
  | Some (Other _) => config_save (data_of object)
  | Some (Data _) => raise TypeError
  | None => raise AttributeError
  end.

Definition cmd_config_set (args : SetArgs) : M world Z :=
  let config := Config_load_object in
  let key := key args in
  let value := value args in
  match config !! key with
  | Some current =>
      value ←
        match current with
        | Data (PBool _) =>
            mret (PBool (existsb (String.eqb (lower value)) ["true"; "1"; "yes"]))
        | Data (PInt _) =>
            match py_int value with
            | Some n => mret (PInt n)
            | None => raise ValueError
            end
        | Data (PFloat _) =>
            match py_float value with
            | Some x => mret (PFloat x)
            | None => raise ValueError
            end
        | Data (PNone | PStr _ | PList _ | PDict _) | Other _ => mret (PStr value)
        end;
      config ←
        match current with
        | Other (Some e) => raise e
        | Data _ | Other None => mret (<[key := Data value]> config)
        end;
      object_save config;;
      print (MsgSet key value);;
      mret 0
  | None =>
      print (MsgUnknownConfigKey key);;
      mret 1
  end.

Definition cmd_abort (args : AbortArgs) : M world Z :=
  let config := Config_load in
  validator ← new_Validator config;
  private_key ← getattr config "private_key";
  if truthy private_key then
    login validator private_key;;
    let round_id := round_id args in
    print (MsgAborting round_id);;
    try_except
      (rounds ← get_all_rounds validator;
       match find (fun r => Z.eqb (Round.id r) round_id) rounds with
       | None =>
           print (MsgRoundNotFound round_id);;
           mret 1
       | Some round_data =>
           pk ← gets public_key;
           if negb (bool_decide (Some (Round.validator round_data) = pk)) then
             print MsgNotValidator;;
             mret 1
           else if negb (bool_decide (Round.status round_data ∈ abortable)) then
             print (MsgCannotAbort (Round.status round_data));;
             mret 1
           else
             tx ← abort_round validator round_id (Round.creator round_data);
             print (PanelRoundAborted round_id (String.substring 0 40 tx));;
             mret 0
       end)
      (fun e =>
         print (MsgError e);;
         mret 1)
  else
    print MsgNotLoggedIn;;
    mret 1.

End Handlers.

End Cli.

(** ** Concrete inputs *)

Module Sample.

Import Cli.

(** [int] on a string of ASCII digits. *)
Definition digit (c : ascii) : option Z :=
  let n := nat_of_ascii c in
  if (Nat.leb 48 n && Nat.leb n 57)%bool then Some (Z.of_nat (n - 48)) else None.

Fixpoint digits (acc : Z) (s : string) : option Z :=
  match s with
  | EmptyString => Some acc
  | String c s' =>
      match digit c with
      | Some d => digits (10 * acc + d) s'
      | None => None
      end
  end.

Definition decimal_int (s : string) : option Z :=
  match s with
  | EmptyString => None
  | _ => digits 0 s
  end.

(** [float] on the two strings the examples use. *)
Definition two_floats (s : string) : option float :=
  if String.eqb s "0.5" then Some 0.5%float
  else if String.eqb s "2" then Some 2%float
  else None.

(** A stored configuration with a key, and the same without. *)
Definition config : gmap string pyval :=
  dict_of_items
    [ ("private_key", PStr "4xPz");
      ("network", PStr "devnet");
      ("min_reward", PFloat 0.5%float);
      ("max_reward", PFloat infinity);
      ("auto_claim", PBool true);
      ("max_concurrent_rounds", PInt 3) ].

Definition config_without_key : gmap string pyval :=
  <["private_key" := PNone]> config.

(** A validator whose login succeeds as "ValidatorKey" and whose ledger
    holds the given rounds. *)
Definition api (rounds : list Round.t) : ValidatorApi :=
  {| login_result := fun _ => Ret true;
     login_public_key := fun _ => Some "ValidatorKey";
     all_rounds := Ret rounds;
     abort_result := fun _ _ => Ret "5VfydnLu";
     start_result := Ret tt |}.

(** Round 42 of the specification's scenarios, in a given status and with a
    given validator. *)
Definition round (status validator : string) : Round.t :=
  {| Round.id := 42;
     Round.status := status;
     Round.dataset := "Cifar10";
     Round.reward_amount := 5000000000;
     Round.trainers_count := 0;
     Round.submissions_count := 0;
     Round.creator := "CreatorKey";
     Round.validator := validator |}.

(** The same stored configuration as an object: its values, its method
    [save], and [__class__], which cannot be assigned a string. *)
Definition config_object : gmap string attribute :=
  <["__class__" := Other (Some TypeError)]>
    (<["save" := Other None]> (Data <$> config)).

(** A stored configuration with the attributes the start panel reads. *)
Definition config_for_start : gmap string pyval :=
  <["allowed_datasets" := PList []]> (<["dry_run" := PBool false]> config_without_key).

End Sample.

(** ** The dataset manager's installed check *)

Module DatasetManagerSpec.

(** A catalog entry: the record the dataset manager keeps for a dataset. *)
Record DatasetRecord : Type := {
  name : string;
  category : string;
  estimatedSize : string;
  installed : bool;
  localPath : string
}.

Definition mark_not_installed (r : DatasetRecord) : DatasetRecord :=
  {| name := name r; category := category r; estimatedSize := estimatedSize r;
     installed := false; localPath := localPath r |}.

Section Disk.

(** The presence check: whether a path exists on disk. *)
Context (path_exists : string -> bool).

(** Modelled from the spec: [DatasetManager.is_downloaded], the installed
    check that [cli.py] calls; it lives in [decloud/dataset_manager.py],
    which is not among the sources.  The answer is true when the record of
    the name is marked installed and the presence check of its local path
    succeeds; a record marked installed whose file is missing is flipped
    back to not installed. *)
Definition is_downloaded (dataset_name : string) : M (gmap string DatasetRecord) bool :=
  records ← gets (fun records => records);
  match records !! dataset_name with
  | Some r =>
      if installed r then
        if path_exists (localPath r) then mret true
        else
          modify (fun records => <[dataset_name := mark_not_installed r]> records);;
          mret false
      else mret false
  | None => mret false
  end.

End Disk.

(** A catalog with "Mnist" marked installed at a path, and a disk that has
    lost every file. *)
Definition sample_catalog : gmap string DatasetRecord :=
  {[ "Mnist" := {| name := "Mnist"; category := "image"; estimatedSize := "11MB";
                   installed := true;
                   localPath := "~/.decloud-validator/datasets/Mnist" |} ]}.

Definition empty_disk : string -> bool := fun _ => false.

End DatasetManagerSpec.

(** ** [config.py]: the methods that change the installed list *)

Module ConfigPyOps.

Import ConfigPy.

(** [container.append(x)]: only a list has [append]. *)
Definition py_append (container : pyval) (x : pyval) : outcome pyval :=
  match container with
  | PList l => Ret (PList (l ++ [x]))
  | _ => Raise AttributeError
  end.

(** [l.remove(name)] on the items of a list: the first item equal to
    [name] goes; [None] when there is none. *)
Fixpoint remove_first (name : string) (l : list pyval) : option (list pyval) :=
  match l with
  | [] => None
  | x :: l' =>
      if py_eq_str x name then Some l'
      else match remove_first name l' with
           | Some l'' => Some (x :: l'')
           | None => None
           end
  end.

(** [container.remove(name)]: only a list has [remove], and it raises
    [ValueError] when no item is equal to [name]. *)
Definition py_remove (container : pyval) (name : string) : outcome pyval :=
  match container with
  | PList l =>
      match remove_first name l with
      | Some l' => Ret (PList l')
      | None => Raise ValueError
      end
  | _ => Raise AttributeError
  end.

Definition add_dataset (dataset_name : string) : meth unit :=
  c ← gets self;
  present ← lift (py_in dataset_name (installed_datasets c));
  if negb present then
    l ← lift (py_append (installed_datasets c) (PStr dataset_name));
    set_self (set_installed_datasets l);;
    save
  else mret tt.

Definition remove_dataset (dataset_name : string) : meth unit :=
  c ← gets self;
  present ← lift (py_in dataset_name (installed_datasets c));
  if (present : bool) then
    l ← lift (py_remove (installed_datasets c) dataset_name);
    set_self (set_installed_datasets l);;
    save
  else mret tt.

(** The installed list of an object, when it is a list of strings. *)
Definition installed_names (c : Config) (names : list string) : Prop :=
  installed_datasets c = PList (PStr <$> names).

(** The state [save] leaves behind for an object [c]. *)
Definition saved (c : Config) : state :=
  {| self := c; CONFIG_FILE := Some (PDict (dict_of_items (save_items c))) |}.

End ConfigPyOps.

(** ** [decloud/cli.py]: the status badge, login, the round list and the
    dataset download *)

From Stdlib Require Import Sorted.

Module CliMore.

Import Cli.

Definition status_styles : gmap string string :=
  dict_of_items
    [ ("waitingValidator", "[black on yellow] WAITING [/]");
      ("waitingTrainers", "[black on cyan] RECRUITING [/]");
      ("training", "[black on blue] TRAINING [/]");
      ("validating", "[black on magenta] VALIDATING [/]");
      ("completed", "[black on green] COMPLETED [/]");
      ("cancelled", "[white on red] CANCELLED [/]");
      ("expired", "[white on dark_red] EXPIRED [/]") ].

Definition print_status_badge (status : string) : string :=
  dict_get status_styles status ("[dim]" ++ status ++ "[/dim]").

(** [sorted(l, key=key, reverse=True)]: descending by key, and items with
    equal keys stay in the order they had.  Each item, taken in input
    order, goes behind every item whose key is not smaller. *)
Fixpoint insert_desc {A} (key : A -> Z) (x : A) (l : list A) : list A :=
  match l with
  | [] => [x]
  | y :: l' => if Z.ltb (key y) (key x) then x :: l else y :: insert_desc key x l'
  end.

Definition sorted_desc {A} (key : A -> Z) (l : list A) : list A :=
  fold_left (fun acc x => insert_desc key x acc) l [].

(** Descending by key. *)
Definition descending {A} (key : A -> Z) (l : list A) : Prop :=
  StronglySorted (fun a b => key b <= key a) l.

(** A row of the round table, before formatting; [ready] is the answer of
    [is_downloaded] for the round's dataset. *)
Record Row : Type := {
  row_id : Z;
  row_badge : string;
  row_dataset : string;
  row_reward_amount : Z;
  row_submissions_count : Z;
  row_trainers_count : Z;
  row_ready : bool
}.

(** The row of one round: the reward is kept as the amount it is computed
    from. *)
Definition row_of (r : Round.t) (has_dataset : bool) : Row :=
  {| row_id := Round.id r;
     row_badge := print_status_badge (Round.status r);
     row_dataset := Round.dataset r;
     row_reward_amount := Round.reward_amount r;
     row_submissions_count := Round.submissions_count r;
     row_trainers_count := Round.trainers_count r;
     row_ready := has_dataset |}.

(** What [console.print] shows in these handlers, without the markup. *)
Inductive message : Type :=
| Blank
| PanelAuthenticationSuccessful (public_key : string)
| MsgCredentialsSaved
| MsgLoginFailed
| TableRounds (rows : list Row)
| PanelSummary (available training completed total : nat)
| PanelMissingDatasets (names : list string)
| PanelDownloadMinimal
| MsgDownloadingCategory (category : string)
| MsgUnknownCategory (category : string)
| MsgAvailableCategories
| MsgCategoryItem (category : string)
| MsgDownloadingDataset (dataset : string)
| PanelDownloadAll
| MsgDownloadComplete
| Banner
| PanelSetupWelcome
| MsgSelectNetwork
| MsgUsingNetwork (name : string)
| MsgWalletConfiguration
| MsgWalletLoaded (public_key : string)
| MsgKeypairFailed
| MsgSetupError (e : exn)
| MsgFileNotFound (path : string)
| MsgPrivateKeySaved
| MsgReferral
| MsgReferrerSet (referrer : string)
| MsgInvalidAddress
| MsgNoReferrer
| MsgAutomationSettings
| MsgRewardFilters
| PanelSetupComplete (config : gmap string pyval).

(** The questions of the setup wizard, in the order it asks them. *)
Inductive prompt : Type :=
| AskNetwork
| AskPrivateKey
| AskReferrer
| AskAutoClaim
| AskAutoStart
| AskAutoValidate
| AskMinReward
| AskMaxReward.

(** The calls of these handlers: those [Cli.event] already names, and the
    further calls on the console, the validator and the dataset manager. *)
Inductive event : Type :=
| Core (e : Cli.event)
| Show (m : message)
| LoginFromFile (keyfile : string)
| IsDownloaded (dataset : string)
| GetMissingDatasets
| NewDatasetManager (data_dir : pyval)
| DownloadMinimal
| DownloadCategory (category : string)
| Download (dataset : string)
| DownloadAll (skip_large : bool)
| Ask (question : prompt)
| SetNetwork (name : string)
| PathExists (path : string).

(** The calls that start a download. *)
Definition is_download (e : event) : bool :=
  match e with
  | DownloadMinimal | DownloadCategory _ | Download _ | DownloadAll _ => true
  | _ => false
  end.

(** What the further methods of a [Validator] object answer;
    [login_from_file_private_key] is the value of [validator._private_key]
    once [login_from_file] has returned. *)
Record ValidatorQueries : Type := {
  login_from_file_result : string -> outcome bool;
  login_from_file_public_key : string -> option string;
  login_from_file_private_key : string -> pyval;
  is_downloaded_result : string -> outcome bool;
  missing_datasets_result : outcome (list string)
}.

(** What the methods of a [DatasetManager] object answer (class
    [DatasetManager] lives in [decloud/dataset_manager.py]); the handler
    drops what they return. *)
Record DatasetManagerApi : Type := {
  download_minimal_result : outcome unit;
  download_category_result : string -> outcome unit;
  download_result : string -> outcome unit;
  download_all_result : bool -> outcome unit
}.

Record world : Type := {
  public_key : option string;
  trace : list event
}.

Definition emit (e : event) : M world unit :=
  modify (fun w => {| public_key := public_key w; trace := trace w ++ [e] |}).

Definition print (m : message) : M world unit := emit (Show m).

Definition fresh : world := {| public_key := None; trace := [] |}.

Definition run {A} (m : M world A) : outcome A * list event :=
  ((m fresh).1, trace (m fresh).2).

(** [for x in l: body x], collecting what the bodies return. *)
Fixpoint for_each {S A B} (body : A -> M S B) (l : list A) : M S (list B) :=
  match l with
  | [] => mret []
  | x :: l' =>
      y ← body x;
      ys ← for_each body l';
      mret (y :: ys)
  end.

(** [try: body  except ValueError: handler] *)
Definition try_except_ValueError {S A} (body : M S A) (handler : M S A) : M S A := fun s =>
  match body s with
  | (Raise ValueError, s') => handler s'
  | r => r
  end.

(** Parsed arguments of [decloud login]. *)
Record LoginArgs : Type := {
  private_key : option string;
  keyfile : option string;
  save : bool
}.

(** Parsed arguments of [decloud datasets download]. *)
Record DownloadArgs : Type := {
  minimal : bool;
  category : option string;
  dataset : option string;
  include_large : bool
}.

(** What the operator types at the eight questions of the setup wizard. *)
Record Answers : Type := {
  network_choice : string;
  key_input : string;
  referrer_input : string;
  auto_claim : string;
  auto_start : string;
  auto_validate : string;
  min_reward : string;
  max_reward : string
}.

(** [s.endswith(suffix)] *)
Definition endswith (s suffix : string) : bool :=
  let n := String.length s in
  let m := String.length suffix in
  Nat.leb m n && String.eqb (String.substring (n - m) m s) suffix.

Section Handlers.

(** The object that [Config.load()] returns; the behaviour of the object
    that [Validator(config)] constructs, in two parts; the behaviour of the
    object that [DatasetManager(data_dir)] constructs; and the values of the
    enumeration [DatasetCategory], in its order. *)
Context (Config_load : gmap string pyval).
Context (Validator : gmap string pyval -> ValidatorApi).
Context (ValidatorMore : gmap string pyval -> ValidatorQueries).
Context (DatasetManager : pyval -> DatasetManagerApi).
Context (DatasetCategory : list string).

Definition new_Validator (config : gmap string pyval)
  : M world (ValidatorApi * ValidatorQueries) :=
  emit (Core (NewValidator config));;
  modify (fun w => {| public_key := None; trace := trace w |});;
  mret (Validator config, ValidatorMore config).

Definition login (validator : ValidatorApi * ValidatorQueries) (private_key : pyval)
  : M world bool :=
  emit (Core (Login private_key));;
  modify (fun w => {| public_key := login_public_key validator.1 private_key;
                      trace := trace w |});;
  lift (login_result validator.1 private_key).

Definition login_from_file (validator : ValidatorApi * ValidatorQueries) (keyfile : string)
  : M world bool :=
  emit (LoginFromFile keyfile);;
  modify (fun w => {| public_key := login_from_file_public_key validator.2 keyfile;
                      trace := trace w |});;
  lift (login_from_file_result validator.2 keyfile).

Definition get_all_rounds (validator : ValidatorApi * ValidatorQueries)
  : M world (list Round.t) :=
  emit (Core GetAllRounds);;
  lift (all_rounds validator.1).

Definition is_downloaded (validator : ValidatorApi * ValidatorQueries) (dataset : string)
  : M world bool :=
  emit (IsDownloaded dataset);;
  lift (is_downloaded_result validator.2 dataset).

Definition get_missing_datasets (validator : ValidatorApi * ValidatorQueries)
  : M world (list string) :=
  emit GetMissingDatasets;;
  lift (missing_datasets_result validator.2).

Definition config_save (config : gmap string pyval) : M world unit :=
  emit (Core (Save config)).

Definition new_DatasetManager (data_dir : pyval) : M world DatasetManagerApi :=
  emit (NewDatasetManager data_dir);;
  mret (DatasetManager data_dir).

Definition download_minimal (manager : DatasetManagerApi) : M world unit :=
  emit DownloadMinimal;;
  lift (download_minimal_result manager).

Definition download_category (manager : DatasetManagerApi) (cat : string) : M world unit :=
  emit (DownloadCategory cat);;
  lift (download_category_result manager cat).

Definition download (manager : DatasetManagerApi) (name : string) : M world unit :=
  emit (Download name);;
  lift (download_result manager name).

Definition download_all (manager : DatasetManagerApi) (skip_large : bool) : M world unit :=
  emit (DownloadAll skip_large);;
  lift (download_all_result manager skip_large).

(** The panel of a successful login shows the first 30 characters of the
    public key and the balance; it is kept as that key prefix. *)
Definition cmd_login (args : LoginArgs) : M world Z :=
  let config := Config_load in
  validator ← new_Validator config;
  success ←
    match keyfile args with
    | Some path =>
        if truthy (PStr path) then login_from_file validator path
        else login validator (of_opt_str (private_key args))
    | None => login validator (of_opt_str (private_key args))
    end;
  (if (success : bool) then
     pk ← gets public_key;
     match pk with
     | None => raise TypeError
     | Some pk =>
         print (PanelAuthenticationSuccessful (String.substring 0 30 pk));;
         if save args then
           let config := setattr config "private_key" (of_opt_str (private_key args)) in
           config_save config;;
           print MsgCredentialsSaved
         else mret tt
     end
   else print MsgLoginFailed);;
  mret (if (success : bool) then 0 else 1).

Definition round_row (validator : ValidatorApi * ValidatorQueries) (r : Round.t)
  : M world Row :=
  has_dataset ← is_downloaded validator (Round.dataset r);
  mret (row_of r has_dataset).

Definition cmd_rounds_list : M world Z :=
  let config := Config_load in
  validator ← new_Validator config;
  rounds ← get_all_rounds validator;
  print Blank;;
  rows ← for_each (round_row validator) (sorted_desc Round.id rounds);
  print (TableRounds rows);;
  let available :=
    length (filter (fun r => Round.status r = "waitingValidator") rounds) in
  let training :=
    length (filter (fun r => Round.status r ∈ ["training"; "validating"]) rounds) in
  let completed :=
    length (filter (fun r => Round.status r = "completed") rounds) in
  print (PanelSummary available training completed (length rounds));;
  missing ← get_missing_datasets validator;
  (match missing with
   | [] => mret tt
   | _ => print (PanelMissingDatasets (take 5 missing))
   end);;
  mret 0.

Definition cmd_datasets_download (args : DownloadArgs) : M world Z :=
  let config := Config_load in
  data_dir ← getattr config "data_dir";
  manager ← new_DatasetManager data_dir;
  print Blank;;
  let finish : M world Z := print MsgDownloadComplete;; mret 0 in
  if minimal args then
    print PanelDownloadMinimal;;
    download_minimal manager;;
    finish
  else if truthy (of_opt_str (category args)) then
    let name := default "" (category args) in
    done ←
      try_except_ValueError
        (if bool_decide (name ∈ DatasetCategory) then
           print (MsgDownloadingCategory name);;
           download_category manager name;;
           mret true
         else raise ValueError)
        (print (MsgUnknownCategory name);;
         print MsgAvailableCategories;;
         for_each (fun c => print (MsgCategoryItem c)) DatasetCategory;;
         mret false);
    if (done : bool) then finish else mret 1
  else if truthy (of_opt_str (dataset args)) then
    let name := default "" (dataset args) in
    print (MsgDownloadingDataset name);;
    download manager name;;
    finish
  else
    print PanelDownloadAll;;
    download_all manager (negb (include_large args));;
    finish.

End Handlers.

Section Setup.

(** The built-ins [str.strip], [len] and [float] on a string; the file
    system as [os.path.exists] sees it; the object that [Config.load()]
    returns and what its method [set_network] does to its attributes; the
    behaviour of the object that [Validator(config)] constructs. *)
Context (strip : string -> string) (len : string -> nat).
Context (py_float : string -> option float).
Context (path_exists : string -> bool).
Context (Config_load : gmap string pyval).
Context (set_network : string -> gmap string pyval -> gmap string pyval).
Context (Validator : gmap string pyval -> ValidatorApi).
Context (ValidatorMore : gmap string pyval -> ValidatorQueries).

(** [console.input(question)]: the operator's answer. *)
Definition input (question : prompt) (answer : string) : M world string :=
  emit (Ask question);;
  mret answer.

Definition config_set_network (name : string) (config : gmap string pyval)
  : M world (gmap string pyval) :=
  emit (SetNetwork name);;
  mret (set_network name config).

Definition os_path_exists (path : string) : M world bool :=
  emit (PathExists path);;
  mret (path_exists path).

(** 1. Network selection *)
Definition setup_network (ans : Answers) (config : gmap string pyval)
  : M world (gmap string pyval) :=
  print MsgSelectNetwork;;
  answer ← input AskNetwork (network_choice ans);
  let network_choice := strip answer in
  if String.eqb network_choice "2" then
    config ← config_set_network "mainnet-beta" config;
    print (MsgUsingNetwork "mainnet-beta");;
    mret config
  else
    config ← config_set_network "devnet" config;
    print (MsgUsingNetwork "devnet");;
    mret config.

(** The [try] block of the wallet step: the key is assigned before the
    wallet line is printed, so it stays assigned when that print raises;
    every exception is reported and dropped. *)
Definition wallet_from_file (v : ValidatorApi * ValidatorQueries) (key_input : string)
    (config : gmap string pyval) : M world (gmap string pyval) := fun w =>
  match login_from_file v key_input w with
  | (Ret true, w') =>
      let config :=
        setattr config "private_key" (login_from_file_private_key v.2 key_input) in
      match public_key w' with
      | Some pk => (print (MsgWalletLoaded (String.substring 0 20 pk));; mret config) w'
      | None => (print (MsgSetupError TypeError);; mret config) w'
      end
  | (Ret false, w') => (print MsgKeypairFailed;; mret config) w'
  | (Raise e, w') => (print (MsgSetupError e);; mret config) w'
  end.

(** 2. Private key *)
Definition setup_wallet (ans : Answers) (config : gmap string pyval)
  : M world (gmap string pyval) :=
  print MsgWalletConfiguration;;
  answer ← input AskPrivateKey (key_input ans);
  let key_input := strip answer in
  if truthy (PStr key_input) then
    if endswith key_input ".json" then
      found ← os_path_exists key_input;
      if (found : bool) then
        v ← new_Validator Validator ValidatorMore config;
        wallet_from_file v key_input config
      else
        print (MsgFileNotFound key_input);;
        mret config
    else
      let config := setattr config "private_key" (PStr key_input) in
      print MsgPrivateKeySaved;;
      mret config
  else mret config.

(** 3. Referrer *)
Definition setup_referrer (ans : Answers) (config : gmap string pyval)
  : M world (gmap string pyval) :=
  print MsgReferral;;
  answer ← input AskReferrer (referrer_input ans);
  let referrer_input := strip answer in
  if truthy (PStr referrer_input) then
    if Nat.leb 32 (len referrer_input) && Nat.leb (len referrer_input) 44 then
      let config := setattr config "referrer" (PStr referrer_input) in
      print (MsgReferrerSet (String.substring 0 20 referrer_input));;
      mret config
    else
      print MsgInvalidAddress;;
      mret config
  else
    print MsgNoReferrer;;
    mret config.

(** 4. Auto settings *)
Definition setup_automation (ans : Answers) (config : gmap string pyval)
  : M world (gmap string pyval) :=
  print MsgAutomationSettings;;
  answer ← input AskAutoClaim (auto_claim ans);
  let auto_claim := lower (strip answer) in
  let config := setattr config "auto_claim" (PBool (negb (String.eqb auto_claim "n"))) in
  answer ← input AskAutoStart (auto_start ans);
  let auto_start := lower (strip answer) in
  let config := setattr config "auto_start" (PBool (negb (String.eqb auto_start "n"))) in
  answer ← input AskAutoValidate (auto_validate ans);
  let auto_validate := lower (strip answer) in
  let config :=
    setattr config "auto_validate" (PBool (negb (String.eqb auto_validate "n"))) in
  mret config.

(** [try: config.<name> = float(text)  except ValueError: pass] *)
Definition set_float (name text : string) (config : gmap string pyval)
  : gmap string pyval :=
  match py_float text with
  | Some x => setattr config name (PFloat x)
  | None => config
  end.

(** 5. Filters *)
Definition setup_filters (ans : Answers) (config : gmap string pyval)
  : M world (gmap string pyval) :=
  print MsgRewardFilters;;
  answer ← input AskMinReward (min_reward ans);
  let min_reward := strip answer in
  let config :=
    if truthy (PStr min_reward) then set_float "min_reward" min_reward config
    else config in
  answer ← input AskMaxReward (max_reward ans);
  let max_reward := strip answer in
  let config :=
    if truthy (PStr max_reward) then set_float "max_reward" max_reward config
    else config in
  mret config.

(** After saving, the closing panel reads the network, the referrer, the
    auto-claim flag and the minimum reward of the configuration, in that
    order; the panel printed is kept as that configuration. *)
Definition cmd_setup (ans : Answers) : M world Z :=
  print Banner;;
  print PanelSetupWelcome;;
  print Blank;;
  let config := Config_load in
  config ← setup_network ans config;
  print Blank;;
  config ← setup_wallet ans config;
  print Blank;;
  config ← setup_referrer ans config;
  print Blank;;
  config ← setup_automation ans config;
  print Blank;;
  config ← setup_filters ans config;
  print Blank;;
  config_save config;;
  getattr config "network";;
  getattr config "referrer";;
  getattr config "auto_claim";;
  getattr config "min_reward";;
  print (PanelSetupComplete config);;
  mret 0.

End Setup.

(** The attributes the closing panel of the wizard reads. *)
Definition closing_panel_reads : list string :=
  ["network"; "referrer"; "auto_claim"; "min_reward"].

(** Whether a configuration has every attribute of a list. *)
Definition has_attributes (names : list string) (config : gmap string pyval) : bool :=
  forallb (fun name => bool_decide (is_Some (config !! name))) names.

(** The calls the wizard may make before it saves. *)
Definition asks (e : event) : Prop :=
  match e with
  | Show _ | Ask _ | SetNetwork _ | PathExists _ | Core (NewValidator _)
  | LoginFromFile _ => True
  | _ => False
  end.

(** A step of the wizard that, run on [w], returns the configuration
    [config'] having made only such calls. *)
Definition step_result (step : M world (gmap string pyval)) (w : world)
    (config' : gmap string pyval) : Prop :=
  exists (pk : option string) (evs : list event),
    step w = (Ret config', {| public_key := pk; trace := trace w ++ evs |}) /\
    Forall asks evs.

End CliMore.

(** ** More concrete inputs *)

Module SampleMore.

Import Cli CliMore.

(** A round of the ledger with a given id, status and dataset. *)
Definition round (id : Z) (status dataset : string) : Round.t :=
  {| Round.id := id;
     Round.status := status;
     Round.dataset := dataset;
     Round.reward_amount := 5000000000;
     Round.trainers_count := 3;
     Round.submissions_count := 1;
     Round.creator := "CreatorKey";
     Round.validator := "" |}.

Definition ledger : list Round.t :=
  [ round 1 "completed" "Mnist";
    round 3 "waitingValidator" "Cifar10";
    round 2 "waitingTrainers" "Svhn" ].

(** Only "Cifar10" is on disk. *)
Definition ready (dataset : string) : bool := String.eqb dataset "Cifar10".

(** A validator whose key file logs in as "ValidatorKey". *)
Definition queries : ValidatorQueries :=
  {| login_from_file_result := fun _ => Ret true;
     login_from_file_public_key := fun _ => Some "ValidatorKey";
     login_from_file_private_key := fun _ => PStr "5KQw";
     is_downloaded_result := fun dataset => Ret (ready dataset);
     missing_datasets_result := Ret ["Mnist"; "Svhn"] |}.

(** A stored configuration with a data directory. *)
Definition config : gmap string pyval :=
  <["data_dir" := PStr "~/.decloud/datasets"]> Sample.config.

(** A dataset manager whose category download answers as given. *)
Definition manager (category_download : outcome unit) : DatasetManagerApi :=
  {| download_minimal_result := Ret tt;
     download_category_result := fun _ => category_download;
     download_result := fun _ => Ret tt;
     download_all_result := fun _ => Ret tt |}.

Definition categories : list string := ["image"; "text"; "audio"].


(** What an operator types in the wizard: mainnet, a key as text, no
    referrer, "no", "N" and nothing for the three flags, "0" and "lots" for
    the two bounds. *)
Definition answers : Answers :=
  {| network_choice := "2";
     key_input := "9qRt";
     referrer_input := "";
     auto_claim := "no";
     auto_start := "N";
     auto_validate := "";
     min_reward := "0";
     max_reward := "lots" |}.

(** [float] on the strings the wizard examples use. *)
Definition floats (s : string) : option float :=
  if String.eqb s "0" then Some 0%float
  else if String.eqb s "2.5" then Some 2.5%float
  else None.

(** A [set_network] that records the name. *)
Definition set_network (name : string) (config : gmap string pyval)
  : gmap string pyval := <["network" := PStr name]> config.

(** What the wizard saves for [answers] on [Sample.config]. *)
Definition wizard_saved : gmap string pyval :=
  <["min_reward" := PFloat 0%float]>
    (<["auto_validate" := PBool true]>
       (<["auto_start" := PBool false]>
          (<["auto_claim" := PBool true]>
             (<["private_key" := PStr "9qRt"]>
                (<["network" := PStr "mainnet-beta"]> Sample.config))))).

(** A stored configuration that already names a referrer. *)
Definition config_with_referrer : gmap string pyval :=
  <["referrer" := PStr "7xKXtg2CW87d97TXJSDpbD5jBkheTqA83TZRuJosgAsU"]> Sample.config.

End SampleMore.

(** * Properties of [config.py] *)

Import ConfigPy.

(** Closing a decidable goal by evaluation. *)
Ltac by_compute := apply (bool_decide_unpack _); vm_compute; exact I.

(** ** The dataset catalogue *)

(** No name is written twice in the display, so [DATASETS.items()] yields
    its entries one for one. *)
Lemma DATASETS_items_NoDup : NoDup DATASETS_items.*1.
Proof. by_compute. Qed.

Lemma DATASETS_items_spec : map_to_list DATASETS ≡ₚ DATASETS_items.
Proof. by_compute. Qed.

Lemma DATASETS_lookup (name : string) (i : Z) :
  DATASETS !! name = Some i <-> (name, i) ∈ DATASETS_items.
Proof. rewrite <- elem_of_map_to_list, DATASETS_items_spec. reflexivity. Qed.

Lemma DATASET_ID_TO_NAME_lookup (i : Z) (name : string) :
  DATASET_ID_TO_NAME !! i = Some name <-> (name, i) ∈ DATASETS_items.
Proof.
  rewrite <- elem_of_map_to_list.
  assert (map_to_list DATASET_ID_TO_NAME ≡ₚ map (fun kv => (kv.2, kv.1)) DATASETS_items)
    as -> by by_compute.
  rewrite list_elem_of_fmap. split.
  - intros [[n j] [[= -> ->] Hin]]. exact Hin.
  - intros Hin. exists (name, i). split; [reflexivity | exact Hin].
Qed.

Lemma DATASETS_items_range :
  Forall (fun kv : string * Z => 0 <= kv.2 < 98) DATASETS_items.
Proof. by_compute. Qed.

Lemma DATASETS_items_onto :
  Forall (fun i : Z => is_Some (DATASET_ID_TO_NAME !! i)) (seqZ 0 98).
Proof. by_compute. Qed.

(** C1: [DATASETS] has exactly 98 names; their indices are pairwise distinct
    and are exactly the integers 0 to 97, with "Cifar10" at 0 and "Sberquad"
    at 97; and [DATASET_ID_TO_NAME] is the inverse of [DATASETS] in both
    directions. *)
Theorem DATASETS_catalog_inverse :
  length DATASETS_items = 98%nat /\
  size DATASETS = 98%nat /\
  size DATASET_ID_TO_NAME = 98%nat /\
  DATASETS !! "Cifar10" = Some 0 /\
  DATASETS !! "Sberquad" = Some 97 /\
  (forall i : Z, (exists name, DATASETS !! name = Some i) <-> 0 <= i < 98) /\
  (forall (n1 n2 : string) (i : Z),
      DATASETS !! n1 = Some i -> DATASETS !! n2 = Some i -> n1 = n2) /\
  (forall (name : string) (i : Z),
      DATASETS !! name = Some i -> DATASET_ID_TO_NAME !! i = Some name) /\
  (forall (i : Z) (name : string),
      DATASET_ID_TO_NAME !! i = Some name -> DATASETS !! name = Some i).
Proof.
  assert (Hinv1 : forall name i,
             DATASETS !! name = Some i -> DATASET_ID_TO_NAME !! i = Some name).
  { intros name i. rewrite DATASETS_lookup, DATASET_ID_TO_NAME_lookup. auto. }
  assert (Hinv2 : forall i name,
             DATASET_ID_TO_NAME !! i = Some name -> DATASETS !! name = Some i).
  { intros i name. rewrite DATASETS_lookup, DATASET_ID_TO_NAME_lookup. auto. }
  split_and!; try (vm_compute; reflexivity); auto.
  - intros i. split.
    + intros [name Hname]. apply DATASETS_lookup in Hname.
      pose proof DATASETS_items_range as Hr. rewrite Forall_forall in Hr.
      apply (Hr (name, i)), Hname.
    + intros Hi. pose proof DATASETS_items_onto as Ho. rewrite Forall_forall in Ho.
      destruct (Ho i) as [name Hname]; [apply elem_of_seqZ; lia |].
      exists name. auto.
  - intros n1 n2 i H1 H2. apply Hinv1 in H1, H2. congruence.
Qed.

(** An instance of the two cancellation laws. *)
Lemma DATASETS_catalog_inverse_witness :
  DATASET_ID_TO_NAME !! 13 = Some "Svhn" /\ DATASETS !! "Mnist" = Some 2.
Proof.
  destruct DATASETS_catalog_inverse as (_ & _ & _ & _ & _ & _ & _ & Hto & Hfrom).
  split.
  - apply (Hto "Svhn" 13). vm_compute. reflexivity.
  - apply (Hfrom 2 "Mnist"). vm_compute. reflexivity.
Defined.

(** ** Persistence *)

Lemma save_items_dom (c : Config) :
  dom (dict_of_items (save_items c)) =
  ({[ "private_key"; "network"; "installed_datasets"; "auto_validate";
      "poll_interval"; "validation_batch_size"; "max_concurrent_validations" ]}
     : gset string).
Proof.
  unfold dict_of_items, save_items. simpl.
  rewrite !dom_insert_L, dom_empty_L. set_solver.
Qed.

Lemma save_items_lookup (c : Config) :
  let data := dict_of_items (save_items c) in
  data !! "private_key" = Some (private_key c) /\
  data !! "network" = Some (network c) /\
  data !! "installed_datasets" = Some (installed_datasets c) /\
  data !! "auto_validate" = Some (auto_validate c) /\
  data !! "poll_interval" = Some (poll_interval c) /\
  data !! "validation_batch_size" = Some (validation_batch_size c) /\
  data !! "max_concurrent_validations" = Some (max_concurrent_validations c).
Proof.
  unfold dict_of_items, save_items. simpl. split_and!; by simplify_map_eq.
Qed.

(** What [_load] does with a file that holds a JSON object. *)
Lemma _load_object (c : Config) (d : gmap string pyval) :
  _load {| self := c; CONFIG_FILE := Some (PDict d) |} =
  (Ret tt,
   {| self := {| private_key := dict_get d "private_key" PNone;
                 network := dict_get d "network" (PStr "devnet");
                 installed_datasets := dict_get d "installed_datasets" (PList []);
                 auto_validate := dict_get d "auto_validate" (PBool true);
                 poll_interval := dict_get d "poll_interval" (PInt 30);
                 validation_batch_size := dict_get d "validation_batch_size" (PInt 1000);
                 max_concurrent_validations :=
                   dict_get d "max_concurrent_validations" (PInt 3) |};
      CONFIG_FILE := Some (PDict d) |}).
Proof. reflexivity. Qed.

(** What [_load] does when there is no file: nothing. *)
Lemma _load_no_file (c : Config) :
  _load {| self := c; CONFIG_FILE := None |} = (Ret tt, {| self := c; CONFIG_FILE := None |}).
Proof. reflexivity. Qed.

Lemma new_Config_object (d : gmap string pyval) :
  new_Config (Some (PDict d)) =
  _load {| self := blank; CONFIG_FILE := Some (PDict d) |}.
Proof. reflexivity. Qed.

(** C7: [save] writes a JSON object whose keys are exactly the seven field
    names, each bound to the value of its field, and leaves the object as it
    was; a [Config()] constructed afterwards holds the same seven values. *)
Theorem save_load_roundtrip (st : state) :
  let st' := (save st).2 in
  (save st).1 = Ret tt /\
  self st' = self st /\
  (exists data : gmap string pyval,
      CONFIG_FILE st' = Some (PDict data) /\
      dom data =
        ({[ "private_key"; "network"; "installed_datasets"; "auto_validate";
            "poll_interval"; "validation_batch_size"; "max_concurrent_validations" ]}
           : gset string) /\
      data !! "private_key" = Some (private_key (self st)) /\
      data !! "network" = Some (network (self st)) /\
      data !! "installed_datasets" = Some (installed_datasets (self st)) /\
      data !! "auto_validate" = Some (auto_validate (self st)) /\
      data !! "poll_interval" = Some (poll_interval (self st)) /\
      data !! "validation_batch_size" = Some (validation_batch_size (self st)) /\
      data !! "max_concurrent_validations" = Some (max_concurrent_validations (self st))) /\
  (forall c : Config,
      _load {| self := c; CONFIG_FILE := CONFIG_FILE st' |} =
      (Ret tt, {| self := self st; CONFIG_FILE := CONFIG_FILE st' |})) /\
  new_Config (CONFIG_FILE st') =
    (Ret tt, {| self := self st; CONFIG_FILE := CONFIG_FILE st' |}).
Proof.
  destruct st as [c file]. simpl.
  pose proof (save_items_lookup c) as (H1 & H2 & H3 & H4 & H5 & H6 & H7). simpl in *.
  split_and!; try reflexivity.
  - eexists. split_and!; [reflexivity | apply save_items_dom | done..].
  - intros c'. rewrite _load_object. unfold dict_get.
    rewrite H1, H2, H3, H4, H5, H6, H7. destruct c; reflexivity.
  - rewrite new_Config_object, _load_object. unfold dict_get.
    rewrite H1, H2, H3, H4, H5, H6, H7. destruct c; reflexivity.
Qed.

(** ** Defaults *)

(** C9: with no configuration file, [Config()] has network "mainnet"; with
    a file whose object has no "network" key, it has network "devnet". *)
Theorem default_network_differs :
  (new_Config None).1 = Ret tt /\
  network (self (new_Config None).2) = PStr "mainnet" /\
  (forall d : gmap string pyval,
      d !! "network" = None ->
      (new_Config (Some (PDict d))).1 = Ret tt /\
      network (self (new_Config (Some (PDict d))).2) = PStr "devnet").
Proof.
  split_and!; try reflexivity.
  intros d Hd. rewrite new_Config_object, _load_object. simpl.
  unfold dict_get. rewrite Hd. split; reflexivity.
Qed.

(** A file that holds [{}]. *)
Lemma default_network_differs_witness :
  network (self (new_Config (Some (PDict ∅))).2) = PStr "devnet".
Proof.
  destruct default_network_differs as (_ & _ & Hfile).
  apply (Hfile ∅). reflexivity.
Defined.

(** ** Endpoints *)

Lemma RPC_ENDPOINTS_lookup (name : string) :
  RPC_ENDPOINTS !! name =
  if decide (name = "testnet") then Some "https://api.testnet.solana.com"
  else if decide (name = "mainnet") then Some "https://api.mainnet-beta.solana.com"
  else if decide (name = "devnet") then Some "https://api.devnet.solana.com"
  else None.
Proof.
  unfold RPC_ENDPOINTS, dict_of_items. simpl.
  repeat case_decide; by simplify_map_eq.
Qed.

(** C8: for a network name outside "devnet", "mainnet" and "testnet",
    [rpc_url] returns the devnet endpoint, raising nothing; for each of the
    three names it returns that network's endpoint. *)
Theorem rpc_url_fallback (st : state) (name : string) :
  network (self st) = PStr name ->
  (name ∉ ["devnet"; "mainnet"; "testnet"] ->
   rpc_url st = (Ret "https://api.devnet.solana.com", st)) /\
  (name = "devnet" -> rpc_url st = (Ret "https://api.devnet.solana.com", st)) /\
  (name = "mainnet" -> rpc_url st = (Ret "https://api.mainnet-beta.solana.com", st)) /\
  (name = "testnet" -> rpc_url st = (Ret "https://api.testnet.solana.com", st)).
Proof.
  intros Hnet.
  assert (Hrun : rpc_url st =
                 (Ret (dict_get RPC_ENDPOINTS name "https://api.devnet.solana.com"), st)).
  { unfold rpc_url, gets, lift, mbind, M_bind, mret, M_ret. rewrite Hnet. reflexivity. }
  rewrite Hrun. unfold dict_get. rewrite RPC_ENDPOINTS_lookup.
  split_and!.
  - intros Hout. rewrite !elem_of_cons in Hout.
    repeat case_decide; try reflexivity; exfalso; apply Hout; auto.
  - intros ->. reflexivity.
  - intros ->. reflexivity.
  - intros ->. reflexivity.
Qed.

(** The network name "mainnet-beta", which the setup wizard stores. *)
Lemma rpc_url_fallback_witness :
  rpc_url {| self := set_network (PStr "mainnet-beta") blank; CONFIG_FILE := None |} =
  (Ret "https://api.devnet.solana.com",
   {| self := set_network (PStr "mainnet-beta") blank; CONFIG_FILE := None |}).
Proof.
  refine (proj1 (rpc_url_fallback
                   {| self := set_network (PStr "mainnet-beta") blank; CONFIG_FILE := None |}
                   "mainnet-beta" eq_refl) _).
  rewrite !elem_of_cons, elem_of_nil. intros [?|[?|[?|[]]]]; discriminate.
Defined.

(** ** Membership in the installed list *)

Lemma existsb_py_eq_str (name : string) (names : list string) :
  existsb (fun x => py_eq_str x name) (PStr <$> names) = bool_decide (name ∈ names).
Proof.
  induction names as [|n names IH].
  - reflexivity.
  - rewrite fmap_cons. cbn [existsb py_eq_str]. rewrite IH. destruct (String.eqb_spec n name) as [->|Hne]; simpl.
    + symmetry. apply bool_decide_eq_true. left.
    + apply bool_decide_ext. rewrite elem_of_cons.
      split; [by right | intros [E|?]; [by destruct Hne | done]].
Qed.

(** ** The installed check of the dataset manager *)

Section InstalledCheck.

Import DatasetManagerSpec.

Context (path_exists : string -> bool).

(** C2: the installed check answers true exactly when the record of the name
    is marked installed and the presence check of its local path succeeds;
    when the record is marked installed and the file is missing, it answers
    false and the record is flipped back to not installed, every other
    record staying as it was; in every other case the catalog is
    unchanged. *)
Theorem is_downloaded_iff_installed_and_present
    (records : gmap string DatasetRecord) (dataset_name : string) :
  let result := is_downloaded path_exists dataset_name records in
  (result.1 = Ret true <->
   exists r, records !! dataset_name = Some r /\ installed r = true /\
             path_exists (localPath r) = true) /\
  (result.1 = Ret true \/ result.1 = Ret false) /\
  (forall r,
      records !! dataset_name = Some r ->
      installed r = true ->
      path_exists (localPath r) = false ->
      result.1 = Ret false /\
      result.2 = <[dataset_name := mark_not_installed r]> records /\
      installed (mark_not_installed r) = false) /\
  ((forall r, records !! dataset_name = Some r -> installed r = true ->
              path_exists (localPath r) = true) ->
   result.2 = records).
Proof.
  unfold is_downloaded, gets, modify, mbind, M_bind, mret, M_ret. cbn.
  destruct (records !! dataset_name) as [r|] eqn:Hr; cbn.
  - destruct (installed r) eqn:Hi; cbn; [destruct (path_exists (localPath r)) eqn:Hp; cbn|].
    + split_and!; [|by left| |done].
      * split; [intros _; by exists r | done].
      * intros r' [= <-] _ Hp'. congruence.
    + split_and!; [|by right| |].
      * split; [done | intros (r' & [= <-] & _ & Hp'); congruence].
      * intros r' [= <-] _ _. done.
      * intros Hall. specialize (Hall r eq_refl Hi). congruence.
    + split_and!; [|by right| |done].
      * split; [done | intros (r' & [= <-] & Hi' & _); congruence].
      * intros r' [= <-] Hi' _. congruence.
  - split_and!; [|by right| |done].
    + split; [done | by intros (r' & ? & _)].
    + intros r' ?. done.
Qed.

End InstalledCheck.

(** "Mnist" is marked installed and its file is gone. *)
Lemma is_downloaded_iff_installed_and_present_witness :
  (DatasetManagerSpec.is_downloaded DatasetManagerSpec.empty_disk "Mnist"
     DatasetManagerSpec.sample_catalog).1 = Ret false /\
  DatasetManagerSpec.installed <$>
    (DatasetManagerSpec.is_downloaded DatasetManagerSpec.empty_disk "Mnist"
       DatasetManagerSpec.sample_catalog).2 !! "Mnist" = Some false.
Proof.
  pose proof (is_downloaded_iff_installed_and_present DatasetManagerSpec.empty_disk
                DatasetManagerSpec.sample_catalog "Mnist") as (_ & _ & Hflip & _).
  destruct (Hflip _ eq_refl eq_refl eq_refl) as (Hfalse & Hrecord & _).
  split; [exact Hfalse|]. rewrite Hrecord. reflexivity.
Defined.

(** * Properties of [decloud/cli.py] *)

Import Cli.

(** Unfolding one handler down to its calls. *)
Ltac unfold_handler :=
  unfold run, cmd_validate_start, cmd_config_set, cmd_abort, try_except,
    new_Validator, login, get_all_rounds, abort_round, start, config_save,
    print, emit, getattr, gets, modify, lift, raise, fresh,
    mbind, M_bind, mret, M_ret.

(** Case analysis on what the validator object answers. *)
Ltac case_validator :=
  repeat first
    [ progress simpl
    | match goal with
      | |- context [login_result ?v ?k] =>
          destruct (login_result v k) as [[|]|?] eqn:?
      | |- context [login_public_key ?v ?k] =>
          destruct (login_public_key v k) eqn:?
      | |- context [start_result ?v] =>
          destruct (start_result v) as [[]|?] eqn:?
      | |- context [all_rounds ?v] =>
          destruct (all_rounds v) as [?|?] eqn:?
      | |- context [abort_result ?v ?i ?c] =>
          destruct (abort_result v i c) as [?|?] eqn:?
      end ].

(** Membership in an explicit list of events. *)
Ltac in_events H :=
  simpl in H; rewrite ?elem_of_cons, ?elem_of_nil in H;
  repeat (destruct H as [H|H]); try discriminate H; try contradiction.

Section HandlerFacts.

Context (py_int : string -> option Z) (py_float : string -> option float).
Context (Config_load Config_from_env : gmap string pyval).
Context (environ : gmap string string).
Context (Validator : gmap string pyval -> ValidatorApi).
Context (Config_load_object : gmap string attribute).

(** ** [cmd_validate_start] *)

(** The command line never writes the key attribute. *)
Lemma apply_cli_args_private_key (args : StartArgs) (config : gmap string pyval) :
  apply_cli_args args config !! "private_key" = config !! "private_key".
Proof.
  unfold apply_cli_args, setattr.
  repeat match goal with |- context [if ?b then _ else _] => destruct b end;
    by simplify_map_eq.
Qed.

Lemma apply_cli_args_min_reward (args : StartArgs) (config : gmap string pyval) :
  apply_cli_args args config !! "min_reward" =
  if truthy (of_opt_float (min_reward args))
  then Some (of_opt_float (min_reward args)) else config !! "min_reward".
Proof.
  unfold apply_cli_args, setattr.
  repeat match goal with |- context [if ?b then _ else _] => destruct b end;
    by simplify_map_eq.
Qed.

Lemma apply_cli_args_max_reward (args : StartArgs) (config : gmap string pyval) :
  apply_cli_args args config !! "max_reward" =
  if truthy (of_opt_float (max_reward args))
  then Some (of_opt_float (max_reward args)) else config !! "max_reward".
Proof.
  unfold apply_cli_args, setattr.
  repeat match goal with |- context [if ?b then _ else _] => destruct b end;
    by simplify_map_eq.
Qed.

(** C5: when the command line, the stored configuration and the environment
    variable DECLOUD_PRIVATE_KEY all give no key (nothing, or an empty
    value), [cmd_validate_start] returns 1 and has only printed the
    authentication panel: no validator constructed, no login, no start. *)
Theorem start_without_key_fails (args : StartArgs) (stored : pyval) :
  truthy (of_opt_str (private_key args)) = false ->
  Config_from_env !! "private_key" = Some stored ->
  truthy stored = false ->
  truthy (getenv environ "DECLOUD_PRIVATE_KEY") = false ->
  run (cmd_validate_start Config_from_env environ Validator args) =
  (Ret 1, [ConsolePrint PanelAuthenticationRequired]).
Proof.
  intros Hargs Hstored Hfalsy Henv. unfold_handler.
  rewrite Hargs, apply_cli_args_private_key, Hstored. unfold py_or.
  rewrite Hfalsy, Henv. reflexivity.
Qed.

(** Every validator that [cmd_validate_start] constructs is given the
    loaded configuration with the command line applied. *)
Lemma cmd_validate_start_validator_config (args : StartArgs) (c : gmap string pyval) :
  NewValidator c ∈ (run (cmd_validate_start Config_from_env environ Validator args)).2 ->
  c = apply_cli_args args Config_from_env.
Proof.
  unfold_handler.
  generalize (apply_cli_args args Config_from_env). intros config.
  assert (Hstarted : forall private_key : pyval,
             NewValidator c ∈
               (let w := {| public_key := None; trace := [] |} in
                let r :=
                  (validator ← new_Validator Validator config;
                   print Banner;;
                   ok ← login validator private_key;
                   if negb ok then mret 1
                   else
                     getattr config "dry_run";;
                     pk ← gets public_key;
                     match pk with
                     | None => raise TypeError
                     | Some pk =>
                         getattr config "network";;
                         getattr config "min_reward";;
                         getattr config "max_reward";;
                         getattr config "allowed_datasets";;
                         print (PanelValidatorStarting (String.substring 0 40 pk) config);;
                         print MsgListening;;
                         start validator;;
                         mret 0
                     end) w in
                trace r.2) ->
             c = config).
  { intros private_key. unfold_handler. cbn.
    destruct (login_result (Validator config) private_key) as [[|]|?]; cbn;
      [|intros H; in_events H; congruence..].
    destruct (config !! "dry_run"); cbn; [|intros H; in_events H; congruence].
    destruct (login_public_key (Validator config) private_key); cbn;
      [|intros H; in_events H; congruence].
    destruct (config !! "network"); cbn; [|intros H; in_events H; congruence].
    destruct (config !! "min_reward"); cbn; [|intros H; in_events H; congruence].
    destruct (config !! "max_reward"); cbn; [|intros H; in_events H; congruence].
    destruct (config !! "allowed_datasets"); cbn; [|intros H; in_events H; congruence].
    destruct (start_result (Validator config)) as [[]|?]; cbn;
      intros H; in_events H; congruence. }
  destruct (truthy (of_opt_str (private_key args))) eqn:Hargs; simpl.
  - rewrite Hargs. simpl. apply Hstarted.
  - destruct (config !! "private_key") as [stored|]; simpl.
    + destruct (truthy (py_or stored (getenv environ "DECLOUD_PRIVATE_KEY"))) eqn:Hkey;
        simpl; [apply Hstarted | intros H; in_events H].
    + intros H; in_events H.
Qed.

(** C10: a reward bound of zero given on the command line is not written
    over the loaded configuration: the validator is constructed with the
    stored bound.  A bound that is not zero is written. *)
Theorem zero_reward_filter_ignored (args : StartArgs) (c : gmap string pyval) :
  NewValidator c ∈ (run (cmd_validate_start Config_from_env environ Validator args)).2 ->
  (forall x : float,
      min_reward args = Some x -> PrimFloat.eqb x 0%float = true ->
      c !! "min_reward" = Config_from_env !! "min_reward") /\
  (forall x : float,
      max_reward args = Some x -> PrimFloat.eqb x 0%float = true ->
      c !! "max_reward" = Config_from_env !! "max_reward") /\
  (forall x : float,
      min_reward args = Some x -> PrimFloat.eqb x 0%float = false ->
      c !! "min_reward" = Some (PFloat x)) /\
  (forall x : float,
      max_reward args = Some x -> PrimFloat.eqb x 0%float = false ->
      c !! "max_reward" = Some (PFloat x)).
Proof.
  intros Hc. apply cmd_validate_start_validator_config in Hc as ->.
  rewrite apply_cli_args_min_reward, apply_cli_args_max_reward.
  split_and!; intros x -> Hx; simpl; rewrite Hx; reflexivity.
Qed.

(** ** [cmd_config_set] *)





(** ** [cmd_abort] *)

(** What [cmd_abort] does once it is logged in and has found the round. *)
Lemma cmd_abort_found (args : AbortArgs) (k : pyval) (ok : bool)
    (rounds : list Round.t) (r : Round.t) :
  let validator := Validator Config_load in
  let before :=
    [NewValidator Config_load; Login k; ConsolePrint (MsgAborting (round_id args)); GetAllRounds] in
  Config_load !! "private_key" = Some k ->
  truthy k = true ->
  login_result validator k = Ret ok ->
  all_rounds validator = Ret rounds ->
  find (fun r => Z.eqb (Round.id r) (round_id args)) rounds = Some r ->
  run (cmd_abort Config_load Validator args) =
  if negb (bool_decide (Some (Round.validator r) = login_public_key validator k)) then
    (Ret 1, (before ++ [ConsolePrint MsgNotValidator])%list)
  else if negb (bool_decide (Round.status r ∈ abortable)) then
    (Ret 1, (before ++ [ConsolePrint (MsgCannotAbort (Round.status r))])%list)
  else
    match abort_result validator (round_id args) (Round.creator r) with
    | Ret tx =>
        (Ret 0,
         (before ++ [AbortRound (round_id args) (Round.creator r);
                     ConsolePrint (PanelRoundAborted (round_id args) (String.substring 0 40 tx))])%list)
    | Raise e =>
        (Ret 1,
         (before ++ [AbortRound (round_id args) (Round.creator r); ConsolePrint (MsgError e)])%list)
    end.
Proof.
  intros validator before Hkey Htruthy Hlogin Hrounds Hfind.
  subst validator before. unfold_handler.
  rewrite Hkey. simpl. rewrite Htruthy, Hlogin, Hrounds. simpl. rewrite Hfind. simpl.
  destruct (bool_decide (Some (Round.validator r) = _)); simpl; [|reflexivity].
  destruct (bool_decide (Round.status r ∈ abortable)); simpl; [|reflexivity].
  destruct (abort_result _ _ _); reflexivity.
Qed.

(** C3, as the code has it: an abort by the round's validator on a round
    whose status is terminal is rejected: the status is reported, 1 is
    returned and no abort instruction is submitted. *)
Theorem abort_terminal_round_rejected (args : AbortArgs) (k : pyval) (ok : bool)
    (rounds : list Round.t) (r : Round.t) :
  Config_load !! "private_key" = Some k ->
  truthy k = true ->
  login_result (Validator Config_load) k = Ret ok ->
  login_public_key (Validator Config_load) k = Some (Round.validator r) ->
  all_rounds (Validator Config_load) = Ret rounds ->
  find (fun r => Z.eqb (Round.id r) (round_id args)) rounds = Some r ->
  Round.status r ∈ terminal ->
  run (cmd_abort Config_load Validator args) =
  (Ret 1, [NewValidator Config_load; Login k; ConsolePrint (MsgAborting (round_id args));
           GetAllRounds; ConsolePrint (MsgCannotAbort (Round.status r))]).
Proof.
  intros Hkey Htruthy Hlogin Hpk Hrounds Hfind Hterm.
  rewrite (cmd_abort_found args k ok rounds r) by assumption.
  rewrite Hpk, bool_decide_eq_true_2 by reflexivity. simpl.
  rewrite bool_decide_eq_false_2; [reflexivity|].
  unfold terminal, abortable in *. intros Hab.
  rewrite !elem_of_cons, elem_of_nil in Hterm, Hab.
  destruct Hterm as [E|[E|[E|[]]]]; rewrite E in Hab;
    destruct Hab as [?|[?|[?|[]]]]; discriminate.
Qed.

(** C4: when the round is found and either the caller's public key is not
    the round's validator or the status is not abortable, [cmd_abort]
    returns 1 and submits no abort instruction; and whenever an abort
    instruction is submitted, it is for the requested round, the caller is
    its validator and its status is abortable. *)
Theorem abort_only_by_validator_in_abortable_state (args : AbortArgs) :
  let validator := Validator Config_load in
  let result := run (cmd_abort Config_load Validator args) in
  (forall (k : pyval) (ok : bool) (rounds : list Round.t) (r : Round.t),
      Config_load !! "private_key" = Some k ->
      truthy k = true ->
      login_result validator k = Ret ok ->
      all_rounds validator = Ret rounds ->
      find (fun r => Z.eqb (Round.id r) (round_id args)) rounds = Some r ->
      login_public_key validator k <> Some (Round.validator r) \/
        Round.status r ∉ abortable ->
      result.1 = Ret 1 /\ forall i c, AbortRound i c ∉ result.2) /\
  (forall (i : Z) (c : string),
      AbortRound i c ∈ result.2 ->
      exists (k : pyval) (rounds : list Round.t) (r : Round.t),
        Config_load !! "private_key" = Some k /\
        all_rounds validator = Ret rounds /\
        find (fun r => Z.eqb (Round.id r) (round_id args)) rounds = Some r /\
        login_public_key validator k = Some (Round.validator r) /\
        Round.status r ∈ abortable /\
        i = round_id args /\ c = Round.creator r).
Proof.
  intros validator result. subst result. split.
  - intros k ok rounds r Hkey Htruthy Hlogin Hrounds Hfind Hrej.
    rewrite (cmd_abort_found args k ok rounds r) by assumption.
    fold validator.
    destruct (bool_decide_reflect (Some (Round.validator r) = login_public_key validator k))
      as [Hpk|Hpk]; simpl.
    + destruct (bool_decide_reflect (Round.status r ∈ abortable)) as [Hst|Hst]; simpl.
      * destruct Hrej as [Hne|Hna]; [by destruct Hne | by destruct Hna].
      * split; [reflexivity|]. intros i c H. in_events H.
    + split; [reflexivity|]. intros i c H. in_events H.
  - intros i c. unfold_handler.
    destruct (Config_load !! "private_key") as [k|] eqn:Hkey; simpl;
      [|intros H; in_events H].
    destruct (truthy k) eqn:Htruthy; simpl; [|intros H; in_events H].
    fold validator.
    destruct (login_result validator k) as [ok|e] eqn:Hlogin; simpl;
      [|intros H; in_events H].
    destruct (all_rounds validator) as [rounds|e] eqn:Hrounds; simpl;
      [|intros H; in_events H].
    destruct (find _ rounds) as [r|] eqn:Hfind; simpl; [|intros H; in_events H].
    destruct (bool_decide_reflect (Some (Round.validator r) = login_public_key validator k))
      as [Hpk|Hpk]; simpl; [|intros H; in_events H].
    destruct (bool_decide_reflect (Round.status r ∈ abortable)) as [Hst|Hst]; simpl;
      [|intros H; in_events H].
    intros H. exists k, rounds, r.
    assert (AbortRound i c = AbortRound (round_id args) (Round.creator r)) as [= -> ->].
    { destruct (abort_result validator (round_id args) (Round.creator r));
        in_events H; assumption. }
    split_and!; auto.
Qed.

End HandlerFacts.

(** * Instances *)

Lemma start_without_key_fails_witness :
  run (cmd_validate_start Sample.config_without_key ∅ (fun _ => Sample.api [])
         {| private_key := None; min_reward := None; max_reward := None;
            dataset := None; dry_run := false; no_websocket := false;
            no_auto_claim := false |}) =
  (Ret 1, [ConsolePrint PanelAuthenticationRequired]).
Proof.
  apply (start_without_key_fails Sample.config_without_key ∅ (fun _ => Sample.api []) _ PNone);
    vm_compute; reflexivity.
Defined.

Lemma zero_reward_filter_ignored_witness :
  (<["dry_run" := PBool true]> Sample.config) !! "min_reward" = Sample.config !! "min_reward".
Proof.
  refine (proj1 (zero_reward_filter_ignored Sample.config ∅ (fun _ => Sample.api [])
                   {| private_key := Some "4xPz"; min_reward := Some 0%float;
                      max_reward := None; dataset := None; dry_run := true;
                      no_websocket := false; no_auto_claim := false |}
                   (<["dry_run" := PBool true]> Sample.config) _)
                0%float eq_refl eq_refl).
  apply list_elem_of_here.
Defined.



Lemma abort_terminal_round_rejected_witness :
  run (cmd_abort Sample.config (fun _ => Sample.api [Sample.round "completed" "ValidatorKey"])
         {| round_id := 42 |}) =
  (Ret 1, [NewValidator Sample.config; Login (PStr "4xPz"); ConsolePrint (MsgAborting 42);
           GetAllRounds; ConsolePrint (MsgCannotAbort "completed")]).
Proof.
  apply (abort_terminal_round_rejected Sample.config
           (fun _ => Sample.api [Sample.round "completed" "ValidatorKey"])
           {| round_id := 42 |} (PStr "4xPz") true
           [Sample.round "completed" "ValidatorKey"]
           (Sample.round "completed" "ValidatorKey"));
    try (vm_compute; reflexivity).
  apply list_elem_of_here.
Defined.

(** C3 as the specification words it fails: round 42 is cancelled, the
    caller is its validator, and the abort returns 1 after reporting that the
    round cannot be aborted. *)
Lemma abort_cancelled_round_returns_failure :
  Round.status (Sample.round "cancelled" "ValidatorKey") ∈ terminal /\
  run (cmd_abort Sample.config (fun _ => Sample.api [Sample.round "cancelled" "ValidatorKey"])
         {| round_id := 42 |}) =
  (Ret 1, [NewValidator Sample.config; Login (PStr "4xPz"); ConsolePrint (MsgAborting 42);
           GetAllRounds; ConsolePrint (MsgCannotAbort "cancelled")]) /\
  (run (cmd_abort Sample.config (fun _ => Sample.api [Sample.round "cancelled" "ValidatorKey"])
          {| round_id := 42 |})).1 <> Ret 0.
Proof.
  split_and!.
  - apply list_elem_of_further, list_elem_of_here.
  - vm_compute. reflexivity.
  - vm_compute. discriminate.
Qed.

Lemma abort_only_by_validator_in_abortable_state_witness :
  (run (cmd_abort Sample.config (fun _ => Sample.api [Sample.round "training" "SomeoneElse"])
          {| round_id := 42 |})).1 = Ret 1 /\
  exists (k : pyval) (rounds : list Round.t) (r : Round.t),
    Sample.config !! "private_key" = Some k /\
    all_rounds (Sample.api [Sample.round "training" "ValidatorKey"]) = Ret rounds /\
    find (fun r => Z.eqb (Round.id r) 42) rounds = Some r /\
    login_public_key (Sample.api [Sample.round "training" "ValidatorKey"]) k =
      Some (Round.validator r) /\
    Round.status r ∈ abortable /\
    42 = 42 /\ "CreatorKey" = Round.creator r.
Proof.
  split.
  - pose proof (abort_only_by_validator_in_abortable_state Sample.config
                  (fun _ => Sample.api [Sample.round "training" "SomeoneElse"])
                  {| round_id := 42 |}) as [Hreject _].
    apply (Hreject (PStr "4xPz") true [Sample.round "training" "SomeoneElse"]
             (Sample.round "training" "SomeoneElse"));
      try (vm_compute; reflexivity).
    left. vm_compute. discriminate.
  - pose proof (abort_only_by_validator_in_abortable_state Sample.config
                  (fun _ => Sample.api [Sample.round "training" "ValidatorKey"])
                  {| round_id := 42 |}) as [_ Honly].
    apply (Honly 42 "CreatorKey").
    do 4 apply list_elem_of_further. apply list_elem_of_here.
Defined.

(** * The model on small inputs *)

Example lower_ascii : lower "Yes" = "yes" /\ lower "TRUE" = "true" /\ lower "n0" = "n0".
Proof. repeat split. Qed.

Example str_contains_examples :
  str_contains "nis" "Mnist" = true /\ str_contains "" "Mnist" = true /\
  str_contains "x" "Mnist" = false.
Proof. repeat split. Qed.

Example truthy_floats :
  truthy (PFloat 0%float) = false /\ truthy (PFloat (-0)%float) = false /\
  truthy (PFloat 0.5%float) = true /\ truthy (PFloat nan) = true.
Proof. repeat split. Qed.

Example truthy_containers :
  truthy (PStr "") = false /\ truthy (PList []) = false /\ truthy (PDict ∅) = false /\
  truthy (PDict {["k" := PNone]}) = true.
Proof. repeat split. Qed.

Example dict_display_later_entry_wins :
  dict_of_items [("a", 1); ("b", 2); ("a", 3)] !! "a" = Some 3.
Proof. vm_compute. reflexivity. Qed.

Example py_in_examples :
  py_in "Mnist" (PList [PStr "Cifar10"; PInt 2; PStr "Mnist"]) = Ret true /\
  py_in "Mnist" (PList [PStr "Cifar10"]) = Ret false /\
  py_in "Mnist" PNone = Raise TypeError.
Proof. repeat split. Qed.

Example load_of_a_list_raises :
  (ConfigPy.new_Config (Some (PList []))).1 = Raise AttributeError.
Proof. reflexivity. Qed.

Example abort_in_training_submits :
  run (cmd_abort Sample.config (fun _ => Sample.api [Sample.round "training" "ValidatorKey"])
         {| round_id := 42 |}) =
  (Ret 0, [NewValidator Sample.config; Login (PStr "4xPz"); ConsolePrint (MsgAborting 42);
           GetAllRounds; AbortRound 42 "CreatorKey";
           ConsolePrint (PanelRoundAborted 42 "5VfydnLu")]).
Proof. vm_compute. reflexivity. Qed.

Example abort_unknown_round :
  run (cmd_abort Sample.config (fun _ => Sample.api [Sample.round "training" "ValidatorKey"])
         {| round_id := 7 |}) =
  (Ret 1, [NewValidator Sample.config; Login (PStr "4xPz"); ConsolePrint (MsgAborting 7);
           GetAllRounds; ConsolePrint (MsgRoundNotFound 7)]).
Proof. vm_compute. reflexivity. Qed.

Example abort_without_stored_key :
  run (cmd_abort Sample.config_without_key (fun _ => Sample.api []) {| round_id := 42 |}) =
  (Ret 1, [NewValidator Sample.config_without_key; ConsolePrint MsgNotLoggedIn]).
Proof. vm_compute. reflexivity. Qed.

Example start_with_key_from_environment :
  run (cmd_validate_start Sample.config_for_start {["DECLOUD_PRIVATE_KEY" := "9qRt"]}
         (fun _ => Sample.api [])
         {| private_key := None; min_reward := None; max_reward := None;
            dataset := None; dry_run := false; no_websocket := false;
            no_auto_claim := false |}) =
  (Ret 0, [NewValidator Sample.config_for_start; ConsolePrint Banner; Login (PStr "9qRt");
           ConsolePrint (PanelValidatorStarting "ValidatorKey" Sample.config_for_start);
           ConsolePrint MsgListening; Start]).
Proof. vm_compute. reflexivity. Qed.

Example start_panel_needs_its_attributes :
  run (cmd_validate_start Sample.config_without_key {["DECLOUD_PRIVATE_KEY" := "9qRt"]}
         (fun _ => Sample.api [])
         {| private_key := None; min_reward := None; max_reward := None;
            dataset := None; dry_run := false; no_websocket := false;
            no_auto_claim := false |}) =
  (Raise AttributeError,
   [NewValidator Sample.config_without_key; ConsolePrint Banner; Login (PStr "9qRt")]).
Proof. vm_compute. reflexivity. Qed.

Example config_set_bool_from_no :
  run (cmd_config_set Sample.decimal_int Sample.two_floats Sample.config_object
         {| key := "auto_claim"; value := "no" |}) =
  (Ret 0, [Save (<["auto_claim" := PBool false]> (data_of Sample.config_object));
           ConsolePrint (MsgSet "auto_claim" (PBool false))]).
Proof. vm_compute. reflexivity. Qed.

Example config_set_int_rejects_text :
  run (cmd_config_set Sample.decimal_int Sample.two_floats Sample.config_object
         {| key := "max_concurrent_rounds"; value := "many" |}) =
  (Raise ValueError, []).
Proof. vm_compute. reflexivity. Qed.

Example config_set_class_is_refused :
  run (cmd_config_set Sample.decimal_int Sample.two_floats Sample.config_object
         {| key := "__class__"; value := "5" |}) =
  (Raise TypeError, []).
Proof. vm_compute. reflexivity. Qed.

Example config_object_values : data_of Sample.config_object = Sample.config.
Proof. vm_compute. reflexivity. Qed.

(** * Further properties of [config.py] *)

Module ConfigPyFacts.

Import ConfigPy ConfigPyOps.

Local Open Scope list_scope.

Ltac unfold_meth :=
  unfold add_dataset, remove_dataset, is_dataset_installed, save, rpc_url,
    set_self, gets, modify, lift, raise, mbind, M_bind, mret, M_ret.

Lemma py_in_names (name : string) (names : list string) :
  py_in name (PList (PStr <$> names)) = Ret (bool_decide (name ∈ names)).
Proof. simpl. by rewrite existsb_py_eq_str. Qed.

Lemma remove_first_names (name : string) (names : list string) :
  name ∈ names ->
  exists l1 l2 : list string,
    names = l1 ++ (name :: l2) /\ (name ∉ l1) /\
    remove_first name (PStr <$> names) = Some (PStr <$> (l1 ++ l2)).
Proof.
  induction names as [|n names IH]; intros Hin; [by apply elem_of_nil in Hin|].
  rewrite fmap_cons. cbn [remove_first py_eq_str].
  destruct (String.eqb_spec n name) as [->|Hne].
  - exists [], names. split_and!; [reflexivity | apply not_elem_of_nil | reflexivity].
  - apply elem_of_cons in Hin as [Heq|Hin]; [by destruct Hne|].
    destruct (IH Hin) as (l1 & l2 & -> & Hl1 & ->).
    exists (n :: l1), l2. split_and!; [reflexivity | | reflexivity].
    rewrite not_elem_of_cons. split; [congruence | exact Hl1].
Qed.

Lemma saved_reloads (c : Config) :
  new_Config (CONFIG_FILE (saved c)) = (Ret tt, saved c).
Proof.
  unfold saved. cbn [CONFIG_FILE]. rewrite new_Config_object, _load_object.
  pose proof (save_items_lookup c) as (H1 & H2 & H3 & H4 & H5 & H6 & H7).
  cbn zeta in *. unfold dict_get. rewrite H1, H2, H3, H4, H5, H6, H7.
  destruct c; reflexivity.
Qed.

(** What [add_dataset] does with a name that is not in the list. *)
Lemma add_dataset_new (st : state) (names : list string) (name : string) :
  installed_names (self st) names -> name ∉ names ->
  add_dataset name st =
  (Ret tt, saved (set_installed_datasets (PList (PStr <$> (names ++ [name]))) (self st))).
Proof.
  intros Hl Hnew. unfold_meth. rewrite Hl, py_in_names.
  rewrite bool_decide_eq_false_2 by exact Hnew. cbn [negb].
  rewrite Hl. cbn [py_append]. rewrite fmap_app. reflexivity.
Qed.

(** What [add_dataset] does with a name that is in the list. *)
Lemma add_dataset_old (st : state) (names : list string) (name : string) :
  installed_names (self st) names -> name ∈ names ->
  add_dataset name st = (Ret tt, st).
Proof.
  intros Hl Hold. unfold_meth. rewrite Hl, py_in_names.
  rewrite bool_decide_eq_true_2 by exact Hold. reflexivity.
Qed.

(** What [remove_dataset] does with a name that is in the list. *)
Lemma remove_dataset_old (st : state) (names : list string) (name : string) :
  installed_names (self st) names -> name ∈ names ->
  exists l1 l2 : list string,
    names = l1 ++ (name :: l2) /\ (name ∉ l1) /\
    remove_dataset name st =
    (Ret tt, saved (set_installed_datasets (PList (PStr <$> (l1 ++ l2))) (self st))).
Proof.
  intros Hl Hold.
  destruct (remove_first_names name names Hold) as (l1 & l2 & Hsplit & Hl1 & Hrm).
  exists l1, l2. split_and!; [exact Hsplit | exact Hl1 |].
  unfold_meth. rewrite Hl, py_in_names.
  rewrite bool_decide_eq_true_2 by exact Hold. rewrite Hl. cbn [py_remove].
  rewrite Hrm. reflexivity.
Qed.

(** Writing back the list an object already has gives the same object. *)
Lemma set_installed_datasets_same (c : Config) (names : list string) :
  installed_names c names ->
  set_installed_datasets (PList (PStr <$> names)) c = c.
Proof. unfold installed_names. destruct c; simpl. by intros ->. Qed.

Lemma is_dataset_installed_names (st : state) (names : list string) (name : string) :
  installed_names (self st) names ->
  is_dataset_installed name st = (Ret (bool_decide (name ∈ names)), st).
Proof. intros Hl. unfold_meth. rewrite Hl, py_in_names. reflexivity. Qed.

(** What [remove_dataset] does with a name that is not in the list. *)
Lemma remove_dataset_new (st : state) (names : list string) (name : string) :
  installed_names (self st) names -> name ∉ names ->
  remove_dataset name st = (Ret tt, st).
Proof.
  intros Hl Hnew. unfold_meth. rewrite Hl, py_in_names.
  rewrite bool_decide_eq_false_2 by exact Hnew. reflexivity.
Qed.

Lemma installed_names_set (c : Config) (names : list string) :
  installed_names (set_installed_datasets (PList (PStr <$> names)) c) names.
Proof. reflexivity. Qed.

(** X1: after [add_dataset] the name is installed, and when it was new, a
    [Config()] constructed from the file just written is the object itself:
    the installation survives a restart. *)
Theorem add_dataset_installs_and_persists
    (st : state) (names : list string) (name : string) :
  installed_names (self st) names ->
  let st' := (add_dataset name st).2 in
  (add_dataset name st).1 = Ret tt /\
  is_dataset_installed name st' = (Ret true, st') /\
  (name ∉ names -> new_Config (CONFIG_FILE st') = (Ret tt, st')).
Proof.
  intros Hl. destruct (decide (name ∈ names)) as [Hold|Hnew].
  - rewrite (add_dataset_old st names name Hl Hold). cbn [fst snd]. split_and!.
    + reflexivity.
    + rewrite (is_dataset_installed_names st names name Hl).
      by rewrite bool_decide_eq_true_2.
    + intros Hnew. by destruct Hnew.
  - rewrite (add_dataset_new st names name Hl Hnew). cbn [fst snd]. split_and!.
    + reflexivity.
    + rewrite (is_dataset_installed_names _ (names ++ [name]) name)
        by apply installed_names_set.
      rewrite bool_decide_eq_true_2; [reflexivity|]. apply elem_of_app. right. left.
    + intros _. apply saved_reloads.
Qed.


(** X2: nothing is written when there is nothing to change: [add_dataset] of an
    installed name and [remove_dataset] of a name that is not installed
    leave the object and the file as they were, whatever the file holds. *)
Theorem installed_list_unchanged_writes_nothing
    (st : state) (names : list string) (name : string) :
  installed_names (self st) names ->
  (name ∈ names -> add_dataset name st = (Ret tt, st)) /\
  (name ∉ names -> remove_dataset name st = (Ret tt, st)).
Proof.
  intros Hl. split; intros Hn.
  - exact (add_dataset_old st names name Hl Hn).
  - exact (remove_dataset_new st names name Hl Hn).
Qed.

Lemma installed_list_unchanged_writes_nothing_witness :
  add_dataset "Mnist"
    {| self := set_installed_datasets (PList [PStr "Mnist"]) blank; CONFIG_FILE := None |} =
  (Ret tt,
   {| self := set_installed_datasets (PList [PStr "Mnist"]) blank; CONFIG_FILE := None |}).
Proof.
  refine (proj1 (installed_list_unchanged_writes_nothing
                   {| self := set_installed_datasets (PList [PStr "Mnist"]) blank;
                      CONFIG_FILE := None |}
                   ["Mnist"] "Mnist" eq_refl) _).
  apply list_elem_of_here.
Defined.

Lemma add_dataset_installs_and_persists_witness :
  new_Config
    (CONFIG_FILE (add_dataset "Svhn"
                    {| self := set_installed_datasets (PList [PStr "Mnist"]) blank;
                       CONFIG_FILE := None |}).2) =
  (Ret tt,
   (add_dataset "Svhn"
      {| self := set_installed_datasets (PList [PStr "Mnist"]) blank;
         CONFIG_FILE := None |}).2).
Proof.
  refine (proj2 (proj2 (add_dataset_installs_and_persists
                          {| self := set_installed_datasets (PList [PStr "Mnist"]) blank;
                             CONFIG_FILE := None |}
                          ["Mnist"] "Svhn" eq_refl)) _).
  rewrite elem_of_cons, elem_of_nil. intros [?|[]]. discriminate.
Defined.

(** X3: on a list without duplicates, [add_dataset] and [remove_dataset] are
    insertion into and deletion from a set, and the list stays without
    duplicates. *)
Theorem installed_list_stays_duplicate_free
    (st : state) (names : list string) (name : string) :
  installed_names (self st) names ->
  NoDup names ->
  (exists names' : list string,
      installed_names (self (add_dataset name st).2) names' /\
      NoDup names' /\
      forall n, n ∈ names' <-> n ∈ names \/ n = name) /\
  (exists names' : list string,
      installed_names (self (remove_dataset name st).2) names' /\
      NoDup names' /\
      forall n, n ∈ names' <-> n ∈ names /\ n <> name).
Proof.
  intros Hl Hnd. destruct (decide (name ∈ names)) as [Hold|Hnew]; split.
  - rewrite (add_dataset_old st names name Hl Hold). exists names.
    split_and!; [exact Hl | exact Hnd |]. intros n. split; [auto|]. by intros [?| ->].
  - destruct (remove_dataset_old st names name Hl Hold) as (l1 & l2 & -> & Hl1 & ->).
    exists (l1 ++ l2). apply NoDup_app in Hnd as (Hnd1 & Hdisj & Hnd2).
    apply NoDup_cons in Hnd2 as [Hl2 Hnd2].
    split_and!; [apply installed_names_set | |].
    + apply NoDup_app. split_and!; [exact Hnd1 | | exact Hnd2].
      intros x Hx1 Hx2. apply (Hdisj x Hx1). by right.
    + intros n. rewrite !elem_of_app, elem_of_cons. split.
      * intros [H1|H2]; (split; [auto|]); intros ->; auto.
      * intros [[H1|[->|H2]] Hne]; auto. by destruct Hne.
  - rewrite (add_dataset_new st names name Hl Hnew). exists (names ++ [name]).
    split_and!; [apply installed_names_set | |].
    + apply NoDup_app. split_and!; [exact Hnd | | apply NoDup_singleton].
      intros x Hx Hx'. apply list_elem_of_singleton in Hx' as ->. by destruct Hnew.
    + intros n. rewrite elem_of_app, list_elem_of_singleton. reflexivity.
  - rewrite (remove_dataset_new st names name Hl Hnew). exists names.
    split_and!; [exact Hl | exact Hnd |]. intros n. split; [|by intros [? _]].
    intros Hn. split; [exact Hn|]. intros ->. by destruct Hnew.
Qed.

Lemma installed_list_stays_duplicate_free_witness :
  exists names' : list string,
    installed_names
      (self (remove_dataset "Mnist"
               {| self := set_installed_datasets (PList [PStr "Mnist"; PStr "Svhn"]) blank;
                  CONFIG_FILE := None |}).2) names' /\
    NoDup names' /\
    forall n, n ∈ names' <-> n ∈ ["Mnist"; "Svhn"] /\ n <> "Mnist".
Proof.
  refine (proj2 (installed_list_stays_duplicate_free
                   {| self := set_installed_datasets (PList [PStr "Mnist"; PStr "Svhn"]) blank;
                      CONFIG_FILE := None |}
                   ["Mnist"; "Svhn"] "Mnist" eq_refl _)).
  apply (bool_decide_unpack _). reflexivity.
Defined.

(** X4: [remove_dataset] takes out the first occurrence only and writes the
    file; a name listed twice is still installed afterwards. *)
Theorem remove_dataset_removes_first_occurrence
    (st : state) (names : list string) (name : string) :
  installed_names (self st) names ->
  name ∈ names ->
  exists l1 l2 : list string,
    names = l1 ++ (name :: l2) /\ (name ∉ l1) /\
    remove_dataset name st =
      (Ret tt, saved (set_installed_datasets (PList (PStr <$> (l1 ++ l2))) (self st))) /\
    (is_dataset_installed name (remove_dataset name st).2).1 =
      Ret (bool_decide (name ∈ l2)).
Proof.
  intros Hl Hold.
  destruct (remove_dataset_old st names name Hl Hold) as (l1 & l2 & Hsplit & Hl1 & Hrun).
  exists l1, l2. split_and!; [exact Hsplit | exact Hl1 | exact Hrun |].
  rewrite Hrun. cbn [snd].
  rewrite (is_dataset_installed_names _ (l1 ++ l2) name) by apply installed_names_set.
  cbn [fst]. f_equal. apply bool_decide_ext. rewrite elem_of_app. split; [|auto].
  intros [H1|H2]; [by destruct Hl1 | exact H2].
Qed.

(** A hand-edited file that lists "Mnist" twice. *)
Lemma remove_dataset_removes_first_occurrence_witness :
  exists l1 l2 : list string,
    ["Mnist"; "Svhn"; "Mnist"] = l1 ++ ("Mnist" :: l2) /\ ("Mnist" ∉ l1) /\
    remove_dataset "Mnist"
      {| self := set_installed_datasets (PList (PStr <$> ["Mnist"; "Svhn"; "Mnist"])) blank;
         CONFIG_FILE := None |} =
      (Ret tt, saved (set_installed_datasets (PList (PStr <$> (l1 ++ l2)))
                        (set_installed_datasets
                           (PList (PStr <$> ["Mnist"; "Svhn"; "Mnist"])) blank))) /\
    (is_dataset_installed "Mnist"
       (remove_dataset "Mnist"
          {| self := set_installed_datasets
                       (PList (PStr <$> ["Mnist"; "Svhn"; "Mnist"])) blank;
             CONFIG_FILE := None |}).2).1 =
      Ret (bool_decide ("Mnist" ∈ l2)).
Proof.
  refine (remove_dataset_removes_first_occurrence
            {| self := set_installed_datasets
                         (PList (PStr <$> ["Mnist"; "Svhn"; "Mnist"])) blank;
               CONFIG_FILE := None |}
            ["Mnist"; "Svhn"; "Mnist"] "Mnist" eq_refl _).
  apply list_elem_of_here.
Defined.

Lemma remove_first_appended (name : string) (names : list string) :
  name ∉ names ->
  remove_first name (PStr <$> (names ++ [name])) = Some (PStr <$> names).
Proof.
  induction names as [|n names IH]; intros Hnew.
  - cbn. by rewrite String.eqb_refl.
  - apply not_elem_of_cons in Hnew as [Hne Hnew].
    cbn [app]. rewrite !fmap_cons. cbn [remove_first py_eq_str].
    destruct (String.eqb_spec n name) as [E|_]; [by destruct Hne|].
    by rewrite (IH Hnew).
Qed.

(** X5: installing a new name and removing it again gives back the object as it
    was, and leaves the file holding exactly that object. *)
Theorem add_then_remove_restores (st : state) (names : list string) (name : string) :
  installed_names (self st) names ->
  name ∉ names ->
  remove_dataset name (add_dataset name st).2 = (Ret tt, saved (self st)).
Proof.
  intros Hl Hnew. rewrite (add_dataset_new st names name Hl Hnew). cbn [snd].
  unfold_meth. cbn [saved self installed_datasets set_installed_datasets].
  rewrite py_in_names, bool_decide_eq_true_2 by (apply elem_of_app; right; left).
  cbn [py_remove]. rewrite (remove_first_appended name names Hnew).
  cbn. rewrite <- Hl. destruct st as [[] ?]; reflexivity.
Qed.

Lemma add_then_remove_restores_witness :
  remove_dataset "Svhn"
    (add_dataset "Svhn"
       {| self := set_installed_datasets (PList [PStr "Mnist"]) blank;
          CONFIG_FILE := None |}).2 =
  (Ret tt, saved (set_installed_datasets (PList [PStr "Mnist"]) blank)).
Proof.
  refine (add_then_remove_restores
            {| self := set_installed_datasets (PList [PStr "Mnist"]) blank;
               CONFIG_FILE := None |}
            ["Mnist"] "Svhn" eq_refl _).
  rewrite elem_of_cons, elem_of_nil. intros [?|[]]. discriminate.
Defined.


(** X6: loading a file and saving again rewrites it to exactly the seven keys:
    a key the file had keeps its value, a missing one gets its default, and
    any other key of the file is gone. *)
Theorem load_then_save_normalises (d : gmap string pyval) :
  let st := (new_Config (Some (PDict d))).2 in
  exists d' : gmap string pyval,
    save st = (Ret tt, {| self := self st; CONFIG_FILE := Some (PDict d') |}) /\
    dom d' =
      ({[ "private_key"; "network"; "installed_datasets"; "auto_validate";
          "poll_interval"; "validation_batch_size"; "max_concurrent_validations" ]}
         : gset string) /\
    d' !! "private_key" = Some (dict_get d "private_key" PNone) /\
    d' !! "network" = Some (dict_get d "network" (PStr "devnet")) /\
    d' !! "installed_datasets" = Some (dict_get d "installed_datasets" (PList [])) /\
    d' !! "auto_validate" = Some (dict_get d "auto_validate" (PBool true)) /\
    d' !! "poll_interval" = Some (dict_get d "poll_interval" (PInt 30)) /\
    d' !! "validation_batch_size" = Some (dict_get d "validation_batch_size" (PInt 1000)) /\
    d' !! "max_concurrent_validations" =
      Some (dict_get d "max_concurrent_validations" (PInt 3)).
Proof.
  rewrite new_Config_object, _load_object. cbn [snd self].
  match goal with
  | |- context [save {| self := ?c; CONFIG_FILE := _ |}] =>
      exists (dict_of_items (save_items c)); pose proof (save_items_lookup c) as Hc
  end.
  split; [reflexivity|]. split; [apply save_items_dom|]. exact Hc.
Qed.

(** X7: a file that holds JSON other than an object makes [_load] raise
    AttributeError with the object untouched, so [Config()] fails. *)
Theorem load_of_non_object_raises (st : state) (doc : pyval) :
  CONFIG_FILE st = Some doc ->
  (forall d, doc <> PDict d) ->
  _load st = (Raise AttributeError, st) /\
  (new_Config (Some doc)).1 = Raise AttributeError.
Proof.
  intros Hfile Hdoc. destruct st as [c file]. cbn in Hfile. subst file.
  destruct doc; try (split; reflexivity). by destruct (Hdoc d).
Qed.

Lemma load_of_non_object_raises_witness :
  (new_Config (Some (PList [PStr "devnet"]))).1 = Raise AttributeError.
Proof.
  refine (proj2 (load_of_non_object_raises
                   {| self := blank; CONFIG_FILE := Some (PList [PStr "devnet"]) |}
                   (PList [PStr "devnet"]) eq_refl _)).
  intros d. discriminate.
Defined.

(** X8: [rpc_url] changes nothing; when it returns, the URL is one of the three
    endpoints, and it raises only TypeError, only for a network that is a
    list or a dict. *)
Theorem rpc_url_outcomes (st : state) :
  (rpc_url st).2 = st /\
  match (rpc_url st).1 with
  | Ret url =>
      url ∈ [ "https://api.devnet.solana.com"; "https://api.mainnet-beta.solana.com";
              "https://api.testnet.solana.com" ]
  | Raise e =>
      e = TypeError /\
      ((exists l, network (self st) = PList l) \/ (exists d, network (self st) = PDict d))
  end.
Proof.
  assert (Hdefault : dict_item RPC_ENDPOINTS "devnet" = Ret "https://api.devnet.solana.com")
    by (vm_compute; reflexivity).
  unfold_meth. rewrite Hdefault.
  destruct (network (self st)) as [| | | |name| |] eqn:Hnet; cbn [fst snd];
    try (split; [reflexivity|]; apply list_elem_of_here).
  - split; [reflexivity|]. unfold dict_get. rewrite RPC_ENDPOINTS_lookup.
    repeat case_decide; rewrite !elem_of_cons; auto.
  - split; [reflexivity|]. split; [reflexivity|]. left. by eexists.
  - split; [reflexivity|]. split; [reflexivity|]. right. by eexists.
Qed.

(** X9: the endpoint a first run talks to and the endpoint after a reload
    differ: without a file it is the mainnet one, with a file that has no
    "network" key it is the devnet one. *)
Theorem endpoint_first_run_vs_reload :
  (rpc_url (new_Config None).2).1 = Ret "https://api.mainnet-beta.solana.com" /\
  forall d : gmap string pyval,
    d !! "network" = None ->
    (rpc_url (new_Config (Some (PDict d))).2).1 = Ret "https://api.devnet.solana.com".
Proof.
  split; [vm_compute; reflexivity|].
  intros d Hd. rewrite new_Config_object, _load_object. cbn [snd].
  unfold_meth. cbn. unfold dict_get at 1. rewrite Hd. reflexivity.
Qed.

Lemma endpoint_first_run_vs_reload_witness :
  (rpc_url (new_Config (Some (PDict {["poll_interval" := PInt 5]}))).2).1 =
  Ret "https://api.devnet.solana.com".
Proof.
  refine (proj2 endpoint_first_run_vs_reload {["poll_interval" := PInt 5]} _).
  vm_compute. reflexivity.
Defined.

(** X10: when the installed list is not a list (a file edited by hand),
    [add_dataset] and [remove_dataset] change neither the object nor the
    file, whether they return or raise. *)
Theorem installed_non_list_never_written (st : state) (name : string) :
  (forall l, installed_datasets (self st) <> PList l) ->
  (add_dataset name st).2 = st /\ (remove_dataset name st).2 = st.
Proof.
  intros Hl. unfold_meth.
  destruct (installed_datasets (self st)) as [| | | |s|l|d] eqn:E; cbn;
    try (split; reflexivity).
  - destruct (str_contains name s); split; reflexivity.
  - by destruct (Hl l).
  - destruct (bool_decide _); split; reflexivity.
Qed.

Lemma installed_non_list_never_written_witness :
  (add_dataset "Svhn"
     {| self := set_installed_datasets (PStr "Mnist") blank; CONFIG_FILE := None |}).2 =
  {| self := set_installed_datasets (PStr "Mnist") blank; CONFIG_FILE := None |}.
Proof.
  refine (proj1 (installed_non_list_never_written
                   {| self := set_installed_datasets (PStr "Mnist") blank;
                      CONFIG_FILE := None |} "Svhn" _)).
  intros l. discriminate.
Defined.

End ConfigPyFacts.

(** * Further properties of [decloud/cli.py] *)

Module CliMoreFacts.

Import Cli CliMore.

Local Open Scope list_scope.

(** ** Strings *)

Lemma string_length_app (s t : string) :
  String.length (s ++ t)%string = (String.length s + String.length t)%nat.
Proof. induction s as [|c s IH]; simpl; [reflexivity | by rewrite IH]. Qed.

Lemma string_app_inj_r (s1 s2 t : string) :
  (s1 ++ t)%string = (s2 ++ t)%string -> s1 = s2.
Proof.
  revert s2. induction s1 as [|c s1 IH]; intros [|c' s2] H.
  - reflexivity.
  - apply (f_equal String.length) in H. rewrite !string_length_app in H.
    simpl in H. lia.
  - apply (f_equal String.length) in H. rewrite !string_length_app in H.
    simpl in H. lia.
  - change (String c (s1 ++ t)%string = String c' (s2 ++ t)%string) in H.
    injection H as -> H. f_equal. by apply IH.
Qed.

(** ** [print_status_badge] *)

Lemma status_styles_lookup (status : string) :
  status_styles !! status =
  if decide (status = "expired") then Some "[white on dark_red] EXPIRED [/]"
  else if decide (status = "cancelled") then Some "[white on red] CANCELLED [/]"
  else if decide (status = "completed") then Some "[black on green] COMPLETED [/]"
  else if decide (status = "validating") then Some "[black on magenta] VALIDATING [/]"
  else if decide (status = "training") then Some "[black on blue] TRAINING [/]"
  else if decide (status = "waitingTrainers") then Some "[black on cyan] RECRUITING [/]"
  else if decide (status = "waitingValidator") then Some "[black on yellow] WAITING [/]"
  else None.
Proof.
  unfold status_styles, dict_of_items. simpl.
  repeat case_decide; by simplify_map_eq.
Qed.

(** X11: two statuses never get the same badge: the seven known badges differ
    from one another, an unknown status is shown as itself between dim
    markers, and no known badge has that form. *)
Theorem print_status_badge_injective (s1 s2 : string) :
  print_status_badge s1 = print_status_badge s2 -> s1 = s2.
Proof.
  unfold print_status_badge, dict_get. rewrite !status_styles_lookup.
  repeat case_decide; subst; intros Heq; try reflexivity;
    try discriminate Heq; simpl in Heq; try discriminate Heq.
  injection Heq as Heq.
  change ((s1 ++ "[/dim]")%string = (s2 ++ "[/dim]")%string) in Heq.
  by apply string_app_inj_r in Heq.
Qed.

Lemma print_status_badge_injective_witness : "paused" = "paused".
Proof.
  apply (print_status_badge_injective "paused" "paused"). reflexivity.
Defined.


(** ** [sorted] with [reverse=True] *)

Section SortedDesc.

Context {A : Type} (key : A -> Z).

Lemma insert_desc_perm (x : A) (l : list A) : insert_desc key x l ≡ₚ x :: l.
Proof.
  induction l as [|y l IH]; simpl; [reflexivity|].
  destruct (Z.ltb_spec (key y) (key x)); [reflexivity|].
  rewrite IH. apply Permutation_swap.
Qed.

Lemma insert_desc_descending (x : A) (l : list A) :
  descending key l -> descending key (insert_desc key x l).
Proof.
  unfold descending. induction 1 as [|y l Hl IH Hy]; simpl.
  - repeat constructor.
  - destruct (Z.ltb_spec (key y) (key x)) as [Hlt|Hge].
    + constructor; [by constructor|]. constructor; [lia|].
      eapply Forall_impl; [exact Hy|]. simpl. intros; lia.
    + constructor; [exact IH|]. rewrite insert_desc_perm. by constructor.
Qed.

Lemma filter_key_none (k : Z) (l : list A) :
  Forall (fun y => key y <> k) l -> filter (fun y => key y = k) l = [].
Proof.
  induction 1 as [|y l Hy _ IH]; [reflexivity|].
  by rewrite filter_cons_False.
Qed.

(** An item goes behind the items of its own key. *)
Lemma insert_desc_filter (k : Z) (x : A) (l : list A) :
  descending key l ->
  filter (fun y => key y = k) (insert_desc key x l) =
  filter (fun y => key y = k) l ++ filter (fun y => key y = k) [x].
Proof.
  unfold descending. induction 1 as [|y l Hl IH Hy]; simpl; [reflexivity|].
  destruct (Z.ltb_spec (key y) (key x)) as [Hlt|Hge].
  - rewrite (filter_cons _ x). rewrite (filter_cons _ x []), filter_nil.
    destruct (decide (key x = k)) as [Hk|Hk]; [|by rewrite app_nil_r].
    assert (filter (fun y0 => key y0 = k) (y :: l) = []) as ->; [|reflexivity].
    apply filter_key_none. constructor; [lia|].
    eapply Forall_impl; [exact Hy|]. simpl. intros; lia.
  - rewrite !(filter_cons _ y), IH. by destruct (decide (key y = k)).
Qed.

Lemma fold_insert_desc (l acc : list A) :
  descending key acc ->
  let sorted := fold_left (fun acc x => insert_desc key x acc) l acc in
  sorted ≡ₚ acc ++ l /\
  descending key sorted /\
  forall k, filter (fun y => key y = k) sorted =
            filter (fun y => key y = k) acc ++ filter (fun y => key y = k) l.
Proof.
  revert acc. induction l as [|x l IH]; intros acc Hacc; simpl.
  - rewrite app_nil_r. split_and!; [reflexivity | exact Hacc |].
    intros k. by rewrite filter_nil, app_nil_r.
  - destruct (IH (insert_desc key x acc) (insert_desc_descending x acc Hacc))
      as (Hperm & Hsorted & Hstable).
    split_and!; [| exact Hsorted |].
    + rewrite Hperm, insert_desc_perm. simpl. apply Permutation_middle.
    + intros k. rewrite Hstable, insert_desc_filter by exact Hacc.
      rewrite <- app_assoc. f_equal. by rewrite <- filter_app.
Qed.

(** [sorted_desc] is the stable descending sort: a rearrangement of its
    input, descending by key, with the items of one key in input order. *)
Lemma sorted_desc_spec (l : list A) :
  sorted_desc key l ≡ₚ l /\
  descending key (sorted_desc key l) /\
  forall k, filter (fun y => key y = k) (sorted_desc key l) =
            filter (fun y => key y = k) l.
Proof.
  destruct (fold_insert_desc l []) as (Hperm & Hsorted & Hstable); [constructor|].
  split_and!; [exact Hperm | exact Hsorted | exact Hstable].
Qed.

End SortedDesc.


(** ** The handlers *)

Ltac unfold_calls :=
  unfold new_Validator, login, login_from_file, get_all_rounds, get_missing_datasets,
    config_save, new_DatasetManager, download_minimal, download_category, download,
    download_all, try_except_ValueError, print, emit, getattr, gets, modify, lift,
    raise, fresh, mbind, M_bind, mret, M_ret.

Section MoreHandlerFacts.

Context (Config_load : gmap string pyval).
Context (Validator : gmap string pyval -> ValidatorApi).
Context (ValidatorMore : gmap string pyval -> ValidatorQueries).
Context (DatasetManager : pyval -> DatasetManagerApi).
Context (DatasetCategory : list string).

(** *** [cmd_rounds_list] *)

Lemma round_row_run (v : ValidatorApi * ValidatorQueries) (r : Round.t) (w : world) :
  round_row v r w =
  (match is_downloaded_result v.2 (Round.dataset r) with
   | Ret b => Ret (row_of r b)
   | Raise e => Raise e
   end,
   {| public_key := public_key w; trace := trace w ++ [IsDownloaded (Round.dataset r)] |}).
Proof.
  unfold round_row, is_downloaded. unfold_calls.
  by destruct (is_downloaded_result v.2 (Round.dataset r)).
Qed.

(** The loop over the rows only asks [is_downloaded]. *)
Lemma for_each_round_row_trace (v : ValidatorApi * ValidatorQueries)
    (rs : list Round.t) (w : world) :
  exists evs : list event,
    trace (for_each (round_row v) rs w).2 = trace w ++ evs /\
    Forall (fun e => exists d, e = IsDownloaded d) evs.
Proof.
  revert w. induction rs as [|r rs IH]; intros w.
  - exists []. split; [by rewrite app_nil_r | constructor].
  - cbn [for_each]. unfold mbind, M_bind, mret, M_ret. rewrite round_row_run.
    destruct (is_downloaded_result v.2 (Round.dataset r)) as [b|e]; cbn.
    + match goal with
      | |- context [for_each (round_row v) rs ?w'] =>
          destruct (IH w') as (evs & Hevs & Hall);
          destruct (for_each (round_row v) rs w') as [[rows|e] w''] eqn:E
      end; cbn in *; rewrite Hevs, <- app_assoc;
        (eexists; split; [reflexivity|]); constructor; eauto.
    + eexists. split; [reflexivity|]. repeat constructor. eauto.
Qed.

(** The loop over the rows when every question is answered. *)
Lemma for_each_round_row_ok (v : ValidatorApi * ValidatorQueries)
    (ready : string -> bool) (rs : list Round.t) (w : world) :
  (forall r, r ∈ rs -> is_downloaded_result v.2 (Round.dataset r) = Ret (ready (Round.dataset r))) ->
  for_each (round_row v) rs w =
  (Ret ((fun r => row_of r (ready (Round.dataset r))) <$> rs),
   {| public_key := public_key w;
      trace := trace w ++ ((fun r => IsDownloaded (Round.dataset r)) <$> rs) |}).
Proof.
  revert w. induction rs as [|r rs IH]; intros w Hready.
  - cbn. rewrite app_nil_r. by destruct w.
  - cbn [for_each]. unfold mbind, M_bind, mret, M_ret. rewrite round_row_run.
    rewrite (Hready r) by left. cbn.
    rewrite IH by (intros r' Hr'; apply Hready; by right). cbn.
    rewrite <- app_assoc. reflexivity.
Qed.

(** X12: [cmd_rounds_list] only reads: whatever the validator answers, its calls
    are the construction of the validator for the loaded configuration, the
    fetch of the rounds, [is_downloaded] questions, the query for missing
    datasets and console output.  It never logs in, submits, starts or
    saves. *)
Theorem cmd_rounds_list_only_reads (e : event) :
  e ∈ (run (cmd_rounds_list Config_load Validator ValidatorMore)).2 ->
  match e with
  | Core (NewValidator c) => c = Config_load
  | Core GetAllRounds | IsDownloaded _ | GetMissingDatasets | Show _ => True
  | _ => False
  end.
Proof.
  revert e. apply Forall_forall.
  unfold run, cmd_rounds_list. unfold_calls. cbn.
  destruct (all_rounds (Validator Config_load)) as [rounds|err]; cbn;
    [|by repeat constructor].
  match goal with
  | |- context [for_each ?f ?l ?w] =>
      destruct (for_each_round_row_trace
                  (Validator Config_load, ValidatorMore Config_load) l w)
        as (evs & Hevs & Hall);
      change f with (round_row (Validator Config_load, ValidatorMore Config_load)) in *;
      destruct (for_each (round_row (Validator Config_load, ValidatorMore Config_load)) l w)
        as [[rows|err] w'] eqn:E
  end; cbn [snd trace] in Hevs; cbn.
  all: assert (Hevs' : Forall (fun e => match e with
                                       | Core (NewValidator c) => c = Config_load
                                       | Core GetAllRounds | IsDownloaded _
                                       | GetMissingDatasets | Show _ => True
                                       | _ => False
                                       end) evs)
         by (eapply Forall_impl; [exact Hall|]; by intros ? [d ->]).
  - destruct (missing_datasets_result (ValidatorMore Config_load)) as [[|m missing]|err];
      cbn; rewrite Hevs;
      repeat first [apply Forall_app; split | apply Forall_cons; split
                   | apply Forall_nil | exact Hevs' | done].
  - rewrite Hevs.
    repeat first [apply Forall_app; split | apply Forall_cons; split
                 | apply Forall_nil | exact Hevs' | done].
Qed.


(** What [cmd_rounds_list] does when every query is answered. *)
Lemma cmd_rounds_list_ok (rounds : list Round.t) (ready : string -> bool)
    (missing : list string) :
  all_rounds (Validator Config_load) = Ret rounds ->
  (forall r, r ∈ rounds ->
     is_downloaded_result (ValidatorMore Config_load) (Round.dataset r) =
     Ret (ready (Round.dataset r))) ->
  missing_datasets_result (ValidatorMore Config_load) = Ret missing ->
  run (cmd_rounds_list Config_load Validator ValidatorMore) =
  (Ret 0,
   [Core (NewValidator Config_load); Core GetAllRounds; Show Blank] ++
   ((fun r => IsDownloaded (Round.dataset r)) <$> sorted_desc Round.id rounds) ++
   [Show (TableRounds ((fun r => row_of r (ready (Round.dataset r)))
                         <$> sorted_desc Round.id rounds));
    Show (PanelSummary
            (length (filter (fun r => Round.status r = "waitingValidator") rounds))
            (length (filter (fun r => Round.status r ∈ ["training"; "validating"]) rounds))
            (length (filter (fun r => Round.status r = "completed") rounds))
            (length rounds));
    GetMissingDatasets] ++
   match missing with
   | [] => []
   | _ => [Show (PanelMissingDatasets (take 5 missing))]
   end).
Proof.
  intros Hrounds Hready Hmissing.
  unfold run, cmd_rounds_list. unfold_calls. cbn. rewrite Hrounds. cbn.
  match goal with
  | |- context [for_each ?f ?l ?w] =>
      change f with (round_row (Validator Config_load, ValidatorMore Config_load));
      rewrite (for_each_round_row_ok
                 (Validator Config_load, ValidatorMore Config_load) ready l w)
  end.
  2:{ intros r Hr. apply Hready.
      by rewrite <- (proj1 (sorted_desc_spec Round.id rounds)). }
  cbn. rewrite Hmissing. destruct missing; cbn; rewrite <- !app_assoc; reflexivity.
Qed.

Lemma descending_fmap {A B} (f : A -> B) (key : B -> Z) (l : list A) :
  descending (fun x => key (f x)) l -> descending key (f <$> l).
Proof.
  unfold descending. induction 1 as [|x l Hl IH Hx]; cbn; constructor; [exact IH|].
  by apply Forall_fmap.
Qed.

Lemma filter_fmap_key {A B} (f : A -> B) (key : B -> Z) (k : Z) (l : list A) :
  filter (fun y => key y = k) (f <$> l) = f <$> filter (fun x => key (f x) = k) l.
Proof.
  induction l as [|x l IH]; [reflexivity|].
  rewrite fmap_cons, !filter_cons, IH. by destruct (decide (key (f x) = k)).
Qed.

(** X13: the table of [cmd_rounds_list] has one row per round, by descending id,
    rounds of equal id in the order the ledger gave them; each row carries
    the answer of [is_downloaded] for its dataset; and the handler
    returns 0. *)
Theorem cmd_rounds_list_table (rounds : list Round.t) (ready : string -> bool)
    (missing : list string) :
  all_rounds (Validator Config_load) = Ret rounds ->
  (forall r, r ∈ rounds ->
     is_downloaded_result (ValidatorMore Config_load) (Round.dataset r) =
     Ret (ready (Round.dataset r))) ->
  missing_datasets_result (ValidatorMore Config_load) = Ret missing ->
  let result := run (cmd_rounds_list Config_load Validator ValidatorMore) in
  let row r := row_of r (ready (Round.dataset r)) in
  exists rows : list Row,
    result.1 = Ret 0 /\
    Show (TableRounds rows) ∈ result.2 /\
    rows ≡ₚ row <$> rounds /\
    descending row_id rows /\
    forall k, filter (fun y => row_id y = k) rows =
              row <$> filter (fun r => Round.id r = k) rounds.
Proof.
  intros Hrounds Hready Hmissing result row. subst result.
  rewrite (cmd_rounds_list_ok rounds ready missing Hrounds Hready Hmissing).
  destruct (sorted_desc_spec Round.id rounds) as (Hperm & Hsorted & Hstable).
  exists (row <$> sorted_desc Round.id rounds). cbn [fst snd]. split_and!.
  - reflexivity.
  - rewrite !elem_of_app. right. right. left. left.
  - by rewrite Hperm.
  - by apply descending_fmap.
  - intros k. rewrite (filter_fmap_key row row_id). cbn [row row_of row_id].
    by rewrite Hstable.
Qed.

Lemma status_partition (rounds : list Round.t) :
  (length (filter (fun r => Round.status r = "waitingValidator") rounds) +
   length (filter (fun r => Round.status r ∈ ["training"; "validating"]) rounds) +
   length (filter (fun r => Round.status r = "completed") rounds) +
   length (filter (fun r => Round.status r ∉
                              ["waitingValidator"; "training"; "validating"; "completed"])
             rounds))%nat =
  length rounds.
Proof.
  induction rounds as [|r rounds IH]; [reflexivity|].
  rewrite !filter_cons. cbn [length]. rewrite <- IH. clear IH.
  repeat case_decide; cbn [length];
    repeat match goal with
           | H : _ ∈ _ |- _ => rewrite ?elem_of_cons, ?elem_of_nil in H
           | H : ¬ (_ ∈ _) |- _ => rewrite ?elem_of_cons, ?elem_of_nil in H
           | H : _ ∉ _ |- _ => rewrite ?elem_of_cons, ?elem_of_nil in H
           end;
    try lia; exfalso; intuition congruence.
Qed.

(** X14: the summary of [cmd_rounds_list] shows the rounds waiting for a
    validator, those in training or validation, those completed and the
    total; these three counters and the rounds in any other status
    (recruiting, cancelled, expired, unknown) add up to the total, so those
    rounds appear in the total only. *)
Theorem cmd_rounds_list_summary (rounds : list Round.t) (ready : string -> bool)
    (missing : list string) :
  all_rounds (Validator Config_load) = Ret rounds ->
  (forall r, r ∈ rounds ->
     is_downloaded_result (ValidatorMore Config_load) (Round.dataset r) =
     Ret (ready (Round.dataset r))) ->
  missing_datasets_result (ValidatorMore Config_load) = Ret missing ->
  let available := length (filter (fun r => Round.status r = "waitingValidator") rounds) in
  let training :=
    length (filter (fun r => Round.status r ∈ ["training"; "validating"]) rounds) in
  let completed := length (filter (fun r => Round.status r = "completed") rounds) in
  let others :=
    length (filter (fun r => Round.status r ∉
                               ["waitingValidator"; "training"; "validating"; "completed"])
              rounds) in
  Show (PanelSummary available training completed (length rounds)) ∈
    (run (cmd_rounds_list Config_load Validator ValidatorMore)).2 /\
  (available + training + completed + others)%nat = length rounds.
Proof.
  intros Hrounds Hready Hmissing.
  rewrite (cmd_rounds_list_ok rounds ready missing Hrounds Hready Hmissing).
  cbn zeta. split; [|apply status_partition].
  cbn [snd]. rewrite !elem_of_app. right. right. left. right. left.
Qed.

(** *** [cmd_login] *)

(** X15: [cmd_login] returns 1 exactly when the login it tried (from the key
    file when one is given, with the positional key otherwise) answered
    false, and returns 0 only when it answered true; and the configuration
    is saved only after a successful login with [--save], as the loaded
    configuration with the positional key for private key. *)
Theorem cmd_login_result_and_save (args : LoginArgs) :
  let attempt :=
    match keyfile args with
    | Some path =>
        if truthy (PStr path)
        then login_from_file_result (ValidatorMore Config_load) path
        else login_result (Validator Config_load) (of_opt_str (private_key args))
    | None => login_result (Validator Config_load) (of_opt_str (private_key args))
    end in
  let result := run (cmd_login Config_load Validator ValidatorMore args) in
  (result.1 = Ret 1 <-> attempt = Ret false) /\
  (result.1 = Ret 0 -> attempt = Ret true) /\
  (forall c, Core (Save c) ∈ result.2 ->
             attempt = Ret true /\ save args = true /\
             c = <["private_key" := of_opt_str (private_key args)]> Config_load).
Proof.
  unfold run, cmd_login, setattr. unfold_calls.
  destruct (keyfile args) as [path|]; cbn;
    [destruct (negb (String.eqb path "")); cbn|].
  all: repeat match goal with
         | |- context [login_from_file_result ?q ?p] =>
             destruct (login_from_file_result q p) as [[|]|?]; cbn
         | |- context [login_result ?v ?k] =>
             destruct (login_result v k) as [[|]|?]; cbn
         | |- context [login_from_file_public_key ?q ?p] =>
             destruct (login_from_file_public_key q p); cbn
         | |- context [login_public_key ?v ?k] =>
             destruct (login_public_key v k); cbn
         | |- context [save ?a] => destruct (save a); cbn
         end.
  all: split_and!; try done; try (split; intros; done).
  all: intros c Hc; rewrite ?elem_of_cons, ?elem_of_nil in Hc;
    repeat (destruct Hc as [Hc|Hc]); try done.
  all: injection Hc as ->; done.
Qed.

(** X16: a login from a key file with [--save] stores the positional key, not
    the key of the file: with no positional key, the stored private key
    becomes None. *)
Theorem cmd_login_keyfile_save_stores_positional_key
    (args : LoginArgs) (path pk : string) :
  keyfile args = Some path ->
  path <> "" ->
  login_from_file_result (ValidatorMore Config_load) path = Ret true ->
  login_from_file_public_key (ValidatorMore Config_load) path = Some pk ->
  save args = true ->
  run (cmd_login Config_load Validator ValidatorMore args) =
  (Ret 0,
   [Core (NewValidator Config_load); LoginFromFile path;
    Show (PanelAuthenticationSuccessful (String.substring 0 30 pk));
    Core (Save (<["private_key" := of_opt_str (private_key args)]> Config_load));
    Show MsgCredentialsSaved]) /\
  (private_key args = None ->
   forall c, Core (Save c) ∈ (run (cmd_login Config_load Validator ValidatorMore args)).2 ->
             c !! "private_key" = Some PNone).
Proof.
  intros Hfile Hpath Hlogin Hpk Hsave.
  assert (Hrun : run (cmd_login Config_load Validator ValidatorMore args) =
                 (Ret 0,
                  [Core (NewValidator Config_load); LoginFromFile path;
                   Show (PanelAuthenticationSuccessful (String.substring 0 30 pk));
                   Core (Save (<["private_key" := of_opt_str (private_key args)]>
                                 Config_load));
                   Show MsgCredentialsSaved])).
  { unfold run, cmd_login, setattr. unfold_calls. rewrite Hfile. cbn.
    apply String.eqb_neq in Hpath. rewrite Hpath. cbn.
    rewrite Hlogin. cbn. rewrite Hpk. cbn. rewrite Hsave. reflexivity. }
  split; [exact Hrun|]. intros Hnone c Hc. rewrite Hrun in Hc. cbn [snd] in Hc.
  rewrite !elem_of_cons, elem_of_nil in Hc.
  repeat (destruct Hc as [Hc|Hc]); try done.
  injection Hc as ->. rewrite Hnone. apply lookup_insert_eq.
Qed.

(** *** [cmd_datasets_download] *)

Lemma for_each_print_categories (cats : list string) (w : world) :
  for_each (fun c => print (MsgCategoryItem c)) cats w =
  (Ret ((fun _ => tt) <$> cats),
   {| public_key := public_key w;
      trace := trace w ++ ((fun c => Show (MsgCategoryItem c)) <$> cats) |}).
Proof.
  revert w. induction cats as [|c cats IH]; intros w.
  - cbn. rewrite app_nil_r. by destruct w.
  - cbn [for_each]. unfold_calls. rewrite IH. cbn. by rewrite <- app_assoc.
Qed.

Lemma filter_download_categories (cats : list string) :
  filter (fun e => is_download e = true) ((fun c => Show (MsgCategoryItem c)) <$> cats) = [].
Proof.
  induction cats as [|c cats IH]; [reflexivity|].
  rewrite fmap_cons, filter_cons_False; [exact IH | discriminate].
Qed.

(** What [cmd_datasets_download] does with a category. *)
Lemma cmd_datasets_download_category (args : DownloadArgs) (data_dir : pyval)
    (name : string) :
  Config_load !! "data_dir" = Some data_dir ->
  minimal args = false ->
  category args = Some name ->
  name <> "" ->
  let manager := DatasetManager data_dir in
  let before := [NewDatasetManager data_dir; Show Blank] in
  let unknown :=
    [Show (MsgUnknownCategory name); Show MsgAvailableCategories] ++
    ((fun c => Show (MsgCategoryItem c)) <$> DatasetCategory) in
  let asked := [Show (MsgDownloadingCategory name); DownloadCategory name] in
  run (cmd_datasets_download Config_load DatasetManager DatasetCategory args) =
  if bool_decide (name ∈ DatasetCategory) then
    match download_category_result manager name with
    | Ret _ => (Ret 0, before ++ asked ++ [Show MsgDownloadComplete])
    | Raise ValueError => (Ret 1, before ++ asked ++ unknown)
    | Raise e => (Raise e, before ++ asked)
    end
  else (Ret 1, before ++ unknown).
Proof.
  intros Hdir Hmin Hcat Hname. cbn zeta.
  unfold run, cmd_datasets_download. unfold_calls.
  rewrite Hdir, Hmin, Hcat. cbn.
  apply String.eqb_neq in Hname. rewrite Hname. cbn.
  destruct (bool_decide (name ∈ DatasetCategory)); cbn.
  - destruct (download_category_result (DatasetManager data_dir) name) as [[]|[]]; cbn;
      try reflexivity.
    rewrite for_each_print_categories. reflexivity.
  - rewrite for_each_print_categories. reflexivity.
Qed.

(** X17: [cmd_datasets_download] starts at most one download, the one its
    arguments select: the minimal pack before a category, a category before
    a single dataset, and everything when none is given. *)
Theorem cmd_datasets_download_one_selected_call (args : DownloadArgs) :
  let selected :=
    if minimal args then DownloadMinimal
    else if truthy (of_opt_str (category args))
         then DownloadCategory (default "" (category args))
    else if truthy (of_opt_str (dataset args))
         then Download (default "" (dataset args))
    else DownloadAll (negb (include_large args)) in
  let calls :=
    filter (fun e => is_download e = true)
      (run (cmd_datasets_download Config_load DatasetManager DatasetCategory args)).2 in
  calls = [] \/ calls = [selected].
Proof.
  cbn zeta. destruct (Config_load !! "data_dir") as [data_dir|] eqn:Hdir.
  2:{ left. unfold run, cmd_datasets_download. unfold_calls. by rewrite Hdir. }
  destruct (minimal args) eqn:Hmin.
  { right. unfold run, cmd_datasets_download. unfold_calls. rewrite Hdir, Hmin. cbn.
    by destruct (download_minimal_result (DatasetManager data_dir)). }
  destruct (category args) as [name|] eqn:Hcat; cbn [of_opt_str truthy default].
  - destruct (String.eqb_spec name "") as [->|Hname]; cbn [negb].
    + unfold run, cmd_datasets_download. unfold_calls. rewrite Hdir, Hmin, Hcat. cbn.
      destruct (dataset args) as [ds|]; cbn; [destruct (negb (String.eqb ds "")); cbn|].
      all: right;
        repeat match goal with
               | |- context [download_result ?m ?n] => destruct (download_result m n); cbn
               | |- context [download_all_result ?m ?b] =>
                   destruct (download_all_result m b); cbn
               end; reflexivity.
    + rewrite (cmd_datasets_download_category args data_dir name Hdir Hmin Hcat Hname).
      destruct (bool_decide (name ∈ DatasetCategory)).
      * destruct (download_category_result (DatasetManager data_dir) name) as [[]|[]];
          cbn [snd]; right; rewrite ?filter_app, ?filter_download_categories; reflexivity.
      * left. cbn [snd]. rewrite !filter_app, filter_download_categories. reflexivity.
  - unfold run, cmd_datasets_download. unfold_calls. rewrite Hdir, Hmin, Hcat. cbn.
    destruct (dataset args) as [ds|]; cbn; [destruct (negb (String.eqb ds "")); cbn|].
    all: right;
      repeat match goal with
             | |- context [download_result ?m ?n] => destruct (download_result m n); cbn
             | |- context [download_all_result ?m ?b] =>
                 destruct (download_all_result m b); cbn
             end; reflexivity.
Qed.


(** X19: a ValueError raised by the download of a known category is taken for an
    unknown category: after the download call the handler reports the
    category as unknown and returns 1; any other exception leaves the
    handler. *)
Theorem cmd_datasets_download_value_error_reported_as_unknown (args : DownloadArgs)
    (data_dir : pyval) (name : string) (e : exn) :
  Config_load !! "data_dir" = Some data_dir ->
  minimal args = false ->
  category args = Some name ->
  name ∈ DatasetCategory ->
  name <> "" ->
  download_category_result (DatasetManager data_dir) name = Raise e ->
  let result := run (cmd_datasets_download Config_load DatasetManager DatasetCategory args) in
  DownloadCategory name ∈ result.2 /\
  (e = ValueError ->
   result.1 = Ret 1 /\ Show (MsgUnknownCategory name) ∈ result.2) /\
  (e <> ValueError -> result.1 = Raise e).
Proof.
  intros Hdir Hmin Hcat Hknown Hname Hraise. cbn zeta.
  rewrite (cmd_datasets_download_category args data_dir name Hdir Hmin Hcat Hname).
  rewrite bool_decide_eq_true_2 by exact Hknown. rewrite Hraise.
  destruct e; cbn [fst snd]; split_and!; try done;
    rewrite ?elem_of_app, ?elem_of_cons; auto 10.
Qed.

End MoreHandlerFacts.


(** ** Instances *)

Lemma cmd_rounds_list_only_reads_witness : SampleMore.config = SampleMore.config.
Proof.
  apply (cmd_rounds_list_only_reads SampleMore.config
           (fun _ => Sample.api SampleMore.ledger) (fun _ => SampleMore.queries)
           (Core (NewValidator SampleMore.config))).
  apply list_elem_of_here.
Defined.

Lemma cmd_rounds_list_table_witness :
  exists rows : list Row,
    (run (cmd_rounds_list SampleMore.config (fun _ => Sample.api SampleMore.ledger)
            (fun _ => SampleMore.queries))).1 = Ret 0 /\
    Show (TableRounds rows) ∈
      (run (cmd_rounds_list SampleMore.config (fun _ => Sample.api SampleMore.ledger)
              (fun _ => SampleMore.queries))).2 /\
    rows ≡ₚ (fun r => row_of r (SampleMore.ready (Round.dataset r))) <$> SampleMore.ledger /\
    descending row_id rows /\
    forall k, filter (fun y => row_id y = k) rows =
              (fun r => row_of r (SampleMore.ready (Round.dataset r)))
                <$> filter (fun r => Round.id r = k) SampleMore.ledger.
Proof.
  apply (cmd_rounds_list_table SampleMore.config (fun _ => Sample.api SampleMore.ledger)
           (fun _ => SampleMore.queries) SampleMore.ledger SampleMore.ready
           ["Mnist"; "Svhn"]); reflexivity.
Defined.

Lemma cmd_rounds_list_summary_witness :
  Show (PanelSummary 1 0 1 3) ∈
    (run (cmd_rounds_list SampleMore.config (fun _ => Sample.api SampleMore.ledger)
            (fun _ => SampleMore.queries))).2.
Proof.
  apply (cmd_rounds_list_summary SampleMore.config (fun _ => Sample.api SampleMore.ledger)
           (fun _ => SampleMore.queries) SampleMore.ledger SampleMore.ready
           ["Mnist"; "Svhn"]); reflexivity.
Defined.

Lemma cmd_login_result_and_save_witness :
  Sample.config =
  <["private_key" := of_opt_str (Some "4xPz")]> Sample.config.
Proof.
  pose proof (cmd_login_result_and_save Sample.config (fun _ => Sample.api [])
                (fun _ => SampleMore.queries)
                {| private_key := Some "4xPz"; keyfile := None; save := true |})
    as (_ & _ & Hsave).
  cbn zeta in Hsave. apply (Hsave Sample.config).
  vm_compute. do 3 apply list_elem_of_further. apply list_elem_of_here.
Defined.

Lemma cmd_login_keyfile_save_stores_positional_key_witness :
  run (cmd_login Sample.config (fun _ => Sample.api []) (fun _ => SampleMore.queries)
         {| private_key := None; keyfile := Some "id.json"; save := true |}) =
  (Ret 0,
   [Core (NewValidator Sample.config); LoginFromFile "id.json";
    Show (PanelAuthenticationSuccessful (String.substring 0 30 "ValidatorKey"));
    Core (Save (<["private_key" := PNone]> Sample.config));
    Show MsgCredentialsSaved]).
Proof.
  refine (proj1 (cmd_login_keyfile_save_stores_positional_key Sample.config
                   (fun _ => Sample.api []) (fun _ => SampleMore.queries)
                   {| private_key := None; keyfile := Some "id.json"; save := true |}
                   "id.json" "ValidatorKey" eq_refl _ eq_refl eq_refl eq_refl)).
  discriminate.
Defined.


Lemma cmd_datasets_download_value_error_reported_as_unknown_witness :
  (run (cmd_datasets_download SampleMore.config
          (fun _ => SampleMore.manager (Raise ValueError)) SampleMore.categories
          {| minimal := false; category := Some "text"; dataset := None;
             include_large := false |})).1 = Ret 1.
Proof.
  refine (proj1 (proj1 (proj2 (cmd_datasets_download_value_error_reported_as_unknown
                                 SampleMore.config
                                 (fun _ => SampleMore.manager (Raise ValueError))
                                 SampleMore.categories
                                 {| minimal := false; category := Some "text";
                                    dataset := None; include_large := false |}
                                 (PStr "~/.decloud/datasets") "text" ValueError
                                 _ eq_refl eq_refl _ _ eq_refl)) eq_refl)).
  - vm_compute. reflexivity.
  - apply list_elem_of_further, list_elem_of_here.
  - discriminate.
Defined.

End CliMoreFacts.

(** * Properties of the setup wizard *)

Module CliSetupFacts.

Import Cli CliMore.

Local Open Scope list_scope.

Ltac unfold_setup :=
  unfold setup_network, setup_wallet, wallet_from_file, setup_referrer, setup_automation,
    setup_filters, input, config_set_network, os_path_exists,
    new_Validator, login_from_file, config_save, print, emit, gets, modify, lift,
    raise, mbind, M_bind, mret, M_ret.

Section SetupFacts.

Context (strip : string -> string) (len : string -> nat).
Context (py_float : string -> option float).
Context (path_exists : string -> bool).
Context (Config_load : gmap string pyval).
Context (set_network : string -> gmap string pyval -> gmap string pyval).
Context (Validator : gmap string pyval -> ValidatorApi).
Context (ValidatorMore : gmap string pyval -> ValidatorQueries).

Lemma setup_network_result (ans : Answers) (config : gmap string pyval) (w : world) :
  step_result (setup_network strip set_network ans config) w
    (set_network (if String.eqb (strip (network_choice ans)) "2"
                  then "mainnet-beta" else "devnet") config).
Proof.
  unfold step_result. unfold_setup.
  destruct (String.eqb (strip (network_choice ans)) "2"); cbn;
    rewrite <- !app_assoc; do 2 eexists; (split; [reflexivity|]);
    by repeat constructor.
Qed.


(** The wallet step: an empty answer changes nothing; a path ending in
    ".json" is never stored itself, and stores the key of the file only when
    the file exists and the login from it answers true; any other text is
    stored as the key, without a login. *)
Lemma setup_wallet_result (ans : Answers) (config : gmap string pyval) (w : world) :
  let key := strip (key_input ans) in
  step_result (setup_wallet strip path_exists Validator ValidatorMore ans config) w
    (if String.eqb key "" then config
     else if endswith key ".json" then
       if path_exists key then
         match login_from_file_result (ValidatorMore config) key with
         | Ret true =>
             <["private_key" := login_from_file_private_key (ValidatorMore config) key]>
               config
         | _ => config
         end
       else config
     else <["private_key" := PStr key]> config).
Proof.
  cbn zeta. unfold step_result. unfold_setup. unfold setattr. cbn.
  destruct (String.eqb (strip (key_input ans)) ""); cbn.
  { rewrite <- !app_assoc. do 2 eexists. split; [reflexivity|]. by repeat constructor. }
  destruct (endswith (strip (key_input ans)) ".json"); cbn.
  2:{ rewrite <- !app_assoc. do 2 eexists. split; [reflexivity|]. by repeat constructor. }
  destruct (path_exists (strip (key_input ans))); cbn.
  2:{ rewrite <- !app_assoc. do 2 eexists. split; [reflexivity|]. by repeat constructor. }
  destruct (login_from_file_result (ValidatorMore config) (strip (key_input ans)))
    as [[|]|e]; cbn;
    [destruct (login_from_file_public_key (ValidatorMore config) (strip (key_input ans)));
     cbn| |];
    rewrite <- !app_assoc; do 2 eexists; (split; [reflexivity|]); by repeat constructor.
Qed.

Lemma setup_referrer_result (ans : Answers) (config : gmap string pyval) (w : world) :
  let referrer := strip (referrer_input ans) in
  step_result (setup_referrer strip len ans config) w
    (if negb (String.eqb referrer "") && Nat.leb 32 (len referrer) && Nat.leb (len referrer) 44
     then <["referrer" := PStr referrer]> config else config).
Proof.
  cbn zeta. unfold step_result. unfold_setup. unfold setattr. cbn -[Nat.leb].
  destruct (String.eqb (strip (referrer_input ans)) ""); cbn -[Nat.leb];
    [|destruct (Nat.leb 32 (len (strip (referrer_input ans)))); cbn -[Nat.leb];
      [destruct (Nat.leb (len (strip (referrer_input ans))) 44); cbn -[Nat.leb]|]];
    rewrite <- !app_assoc; do 2 eexists; (split; [reflexivity|]); by repeat constructor.
Qed.

Lemma setup_automation_result (ans : Answers) (config : gmap string pyval) (w : world) :
  step_result (setup_automation strip ans config) w
    (<["auto_validate" := PBool (negb (String.eqb (lower (strip (auto_validate ans))) "n"))]>
       (<["auto_start" := PBool (negb (String.eqb (lower (strip (auto_start ans))) "n"))]>
          (<["auto_claim" := PBool (negb (String.eqb (lower (strip (auto_claim ans))) "n"))]>
             config))).
Proof.
  unfold step_result. unfold_setup. unfold setattr. cbn.
  rewrite <- !app_assoc. do 2 eexists. split; [reflexivity|]. by repeat constructor.
Qed.

(** The value a filter question leaves in an attribute. *)
Lemma set_float_lookup (name text : string) (config : gmap string pyval) (k : string) :
  set_float py_float name text config !! k =
  match py_float text with
  | Some x => if decide (name = k) then Some (PFloat x) else config !! k
  | None => config !! k
  end.
Proof.
  unfold set_float, setattr. destruct (py_float text); [|reflexivity].
  apply lookup_insert.
Qed.

Lemma setup_filters_result (ans : Answers) (config : gmap string pyval) (w : world) :
  let filter name text config :=
    if String.eqb text "" then config else set_float py_float name text config in
  step_result (setup_filters strip py_float ans config) w
    (filter "max_reward" (strip (max_reward ans))
       (filter "min_reward" (strip (min_reward ans)) config)).
Proof.
  cbn zeta. unfold step_result. unfold_setup. cbn.
  destruct (String.eqb (strip (min_reward ans)) "");
    destruct (String.eqb (strip (max_reward ans)) ""); cbn;
    rewrite <- !app_assoc; do 2 eexists; (split; [reflexivity|]); by repeat constructor.
Qed.


(** The end of a run of the wizard that saved [c] after the calls [before]:
    0 and the closing panel when [c] has what the panel reads,
    AttributeError otherwise. *)
Lemma closing_panel_result (c : gmap string pyval) (pk : option string)
    (before : list event) :
  let result :=
    (config_save c;;
     getattr c "network";;
     getattr c "referrer";;
     getattr c "auto_claim";;
     getattr c "min_reward";;
     print (PanelSetupComplete c);;
     mret 0) {| public_key := pk; trace := before |} in
  (result.1, trace result.2) =
  if has_attributes closing_panel_reads c
  then (Ret 0, before ++ [Core (Save c); Show (PanelSetupComplete c)])
  else (Raise AttributeError, before ++ [Core (Save c)]).
Proof.
  unfold has_attributes, closing_panel_reads, config_save, getattr, print, emit, modify,
    raise, mbind, M_bind, mret, M_ret.
  cbn [forallb trace public_key].
  destruct (c !! "network"); cbn; [|reflexivity].
  destruct (c !! "referrer"); cbn; [|reflexivity].
  destruct (c !! "auto_claim"); cbn; [|reflexivity].
  destruct (c !! "min_reward"); cbn; [|reflexivity].
  by rewrite <- app_assoc.
Qed.

(** What the wizard saves, step by step. *)
Lemma cmd_setup_saved (ans : Answers) :
  let selected :=
    if String.eqb (strip (network_choice ans)) "2" then "mainnet-beta" else "devnet" in
  let key := strip (key_input ans) in
  let referrer := strip (referrer_input ans) in
  let flag answer := PBool (negb (String.eqb (lower (strip answer)) "n")) in
  let filter name text config :=
    if String.eqb text "" then config else set_float py_float name text config in
  let c1 := set_network selected Config_load in
  let c2 :=
    if String.eqb key "" then c1
    else if endswith key ".json" then
      if path_exists key then
        match login_from_file_result (ValidatorMore c1) key with
        | Ret true =>
            <["private_key" := login_from_file_private_key (ValidatorMore c1) key]> c1
        | _ => c1
        end
      else c1
    else <["private_key" := PStr key]> c1 in
  let c3 :=
    if negb (String.eqb referrer "") && Nat.leb 32 (len referrer) && Nat.leb (len referrer) 44
    then <["referrer" := PStr referrer]> c2 else c2 in
  let c4 :=
    <["auto_validate" := flag (auto_validate ans)]>
      (<["auto_start" := flag (auto_start ans)]>
         (<["auto_claim" := flag (auto_claim ans)]> c3)) in
  let c5 :=
    filter "max_reward" (strip (max_reward ans))
      (filter "min_reward" (strip (min_reward ans)) c4) in
  exists before : list event,
    run (cmd_setup strip len py_float path_exists Config_load set_network
           Validator ValidatorMore ans) =
    (if has_attributes closing_panel_reads c5
     then (Ret 0, before ++ [Core (Save c5); Show (PanelSetupComplete c5)])
     else (Raise AttributeError, before ++ [Core (Save c5)])) /\
    Forall asks before.
Proof.
  cbn zeta.
  unfold run, cmd_setup, config_save, print, emit, modify, fresh, mbind, M_bind,
    mret, M_ret.
  cbn [trace public_key app].
  match goal with
  | |- context [setup_network strip set_network ans Config_load ?w] =>
      destruct (setup_network_result ans Config_load w) as (pk1 & evs1 & E1 & H1)
  end.
  rewrite E1. cbn [trace public_key fst snd].
  match goal with
  | |- context [setup_wallet strip path_exists Validator ValidatorMore ans ?c ?w] =>
      destruct (setup_wallet_result ans c w) as (pk2 & evs2 & E2 & H2)
  end.
  cbn zeta in E2. rewrite E2. cbn [trace public_key fst snd].
  match goal with
  | |- context [setup_referrer strip len ans ?c ?w] =>
      destruct (setup_referrer_result ans c w) as (pk3 & evs3 & E3 & H3)
  end.
  cbn zeta in E3. rewrite E3. cbn [trace public_key fst snd].
  match goal with
  | |- context [setup_automation strip ans ?c ?w] =>
      destruct (setup_automation_result ans c w) as (pk4 & evs4 & E4 & H4)
  end.
  rewrite E4. cbn [trace public_key fst snd].
  match goal with
  | |- context [setup_filters strip py_float ans ?c ?w] =>
      destruct (setup_filters_result ans c w) as (pk5 & evs5 & E5 & H5)
  end.
  cbn zeta in E5. rewrite E5. cbn [trace public_key fst snd].
  eexists. split.
  - clear E1 E2 E3 E4 E5.
    match goal with
    | |- _ = if has_attributes _ ?c then _ else _ => generalize c
    end.
    intros c. etransitivity; [|exact (closing_panel_result c pk5 _)].
    reflexivity.
  - repeat first [apply Forall_app; split | apply Forall_cons; split | apply Forall_nil
                 | assumption | exact I].
Qed.

(** The configuration in a [Save] call of a trace that ends in one. *)
Lemma saved_in_trace (before : list event) (c5 c : gmap string pyval) :
  Forall asks before ->
  Core (Save c) ∈
    (if has_attributes closing_panel_reads c5
     then (Ret 0, before ++ [Core (Save c5); Show (PanelSetupComplete c5)])
     else (Raise AttributeError, before ++ [Core (Save c5)])).2 ->
  c = c5.
Proof.
  intros Hbefore Hin.
  assert (Hin' : Core (Save c) ∈ before \/ c = c5).
  { destruct (has_attributes closing_panel_reads c5); cbn [snd] in Hin;
      rewrite elem_of_app, ?elem_of_cons, elem_of_nil in Hin.
    - destruct Hin as [Hin|[Hin|[Hin|[]]]]; [by left|right; congruence|discriminate].
    - destruct Hin as [Hin|[Hin|[]]]; [by left|right; congruence]. }
  destruct Hin' as [Hin'|]; [|assumption].
  rewrite Forall_forall in Hbefore. by destruct (Hbefore _ Hin').
Qed.

(** A filter question leaves every other attribute alone. *)
Lemma filter_lookup_ne (name text k : string) (config : gmap string pyval) :
  name <> k ->
  (if String.eqb text "" then config else set_float py_float name text config) !! k =
  config !! k.
Proof.
  intros Hne. destruct (String.eqb text ""); [reflexivity|].
  rewrite set_float_lookup. destruct (py_float text); [|reflexivity].
  by rewrite decide_False.
Qed.

Lemma filter_lookup_eq (name text : string) (config : gmap string pyval) :
  (if String.eqb text "" then config else set_float py_float name text config) !! name =
  if String.eqb text "" then config !! name
  else match py_float text with
       | Some x => Some (PFloat x)
       | None => config !! name
       end.
Proof.
  destruct (String.eqb text ""); [reflexivity|].
  rewrite set_float_lookup. destruct (py_float text); [|reflexivity].
  by rewrite decide_True.
Qed.

(** The configuration of the [Save] call of a run. *)
Ltac saved_config ans c Hc :=
  let before := fresh "before" in
  let Hrun := fresh "Hrun" in
  let Hbefore := fresh "Hbefore" in
  destruct (cmd_setup_saved ans) as (before & Hrun & Hbefore);
  cbn zeta in Hrun; rewrite Hrun in Hc;
  apply saved_in_trace in Hc; [|exact Hbefore]; subst c; clear Hrun Hbefore before.


(** X21: the wizard writes seven attributes and no other: on every other
    attribute the saved configuration is what [set_network] made of the
    loaded one, for "mainnet-beta" when the first answer is "2" and for
    "devnet" on any other answer. *)
Theorem cmd_setup_touches_only_its_attributes
    (ans : Answers) (c : gmap string pyval) (k : string) :
  Core (Save c) ∈
    (run (cmd_setup strip len py_float path_exists Config_load set_network
            Validator ValidatorMore ans)).2 ->
  k ∉ ["private_key"; "referrer"; "auto_claim"; "auto_start"; "auto_validate";
       "min_reward"; "max_reward"] ->
  c !! k =
  set_network (if String.eqb (strip (network_choice ans)) "2"
               then "mainnet-beta" else "devnet") Config_load !! k.
Proof.
  intros Hc Hk. saved_config ans c Hc.
  rewrite !not_elem_of_cons in Hk.
  destruct Hk as (K1 & K2 & K3 & K4 & K5 & K6 & K7 & _).
  rewrite !filter_lookup_ne by congruence.
  rewrite !lookup_insert_ne by congruence.
  repeat match goal with
         | |- context [if ?b then _ else _] => destruct b
         | |- context [match ?o with Ret _ => _ | Raise _ => _ end] => destruct o
         end;
    rewrite ?lookup_insert_ne by congruence; reflexivity.
Qed.

(** X22: an automation flag is switched off only by the answer "n" or "N"
    (spaces aside): every other answer, "no" included, leaves it on. *)
Theorem cmd_setup_automation_only_n_disables (ans : Answers) (c : gmap string pyval) :
  Core (Save c) ∈
    (run (cmd_setup strip len py_float path_exists Config_load set_network
            Validator ValidatorMore ans)).2 ->
  c !! "auto_claim" = Some (PBool (negb (String.eqb (lower (strip (auto_claim ans))) "n"))) /\
  c !! "auto_start" = Some (PBool (negb (String.eqb (lower (strip (auto_start ans))) "n"))) /\
  c !! "auto_validate" =
    Some (PBool (negb (String.eqb (lower (strip (auto_validate ans))) "n"))).
Proof.
  intros Hc. saved_config ans c Hc.
  rewrite !filter_lookup_ne by discriminate.
  split_and!; by simplify_map_eq.
Qed.

(** X23: a reward bound typed in the wizard is stored whenever it parses as a
    float, zero included; an empty answer or one that does not parse leaves
    the bound as it was. *)
Theorem cmd_setup_reward_filters (ans : Answers) (c : gmap string pyval) :
  Core (Save c) ∈
    (run (cmd_setup strip len py_float path_exists Config_load set_network
            Validator ValidatorMore ans)).2 ->
  let loaded :=
    set_network (if String.eqb (strip (network_choice ans)) "2"
                 then "mainnet-beta" else "devnet") Config_load in
  let bound name text :=
    if String.eqb text "" then loaded !! name
    else match py_float text with
         | Some x => Some (PFloat x)
         | None => loaded !! name
         end in
  c !! "min_reward" = bound "min_reward" (strip (min_reward ans)) /\
  c !! "max_reward" = bound "max_reward" (strip (max_reward ans)).
Proof.
  intros Hc. cbn zeta. saved_config ans c Hc. split.
  - rewrite filter_lookup_ne by discriminate. rewrite filter_lookup_eq.
    rewrite !lookup_insert_ne by discriminate.
    repeat match goal with
           | |- context [if ?b then _ else _] => destruct b
           | |- context [match ?o with Ret _ => _ | Raise _ => _ end] => destruct o
           | |- context [match ?o with Some _ => _ | None => _ end] => destruct o
           end;
      rewrite ?lookup_insert_ne by discriminate; reflexivity.
  - rewrite filter_lookup_eq. rewrite filter_lookup_ne by discriminate.
    rewrite !lookup_insert_ne by discriminate.
    repeat match goal with
           | |- context [if ?b then _ else _] => destruct b
           | |- context [match ?o with Ret _ => _ | Raise _ => _ end] => destruct o
           | |- context [match ?o with Some _ => _ | None => _ end] => destruct o
           end;
      rewrite ?lookup_insert_ne by discriminate; reflexivity.
Qed.

(** X24: the private key the wizard saves: an empty answer leaves it as it was;
    a path ending in ".json" is never stored itself and replaces the key (by
    the key of the file) only when the file exists and the login from it
    answers true; any other text is stored as typed, unchecked. *)
Theorem cmd_setup_private_key (ans : Answers) (c : gmap string pyval) :
  Core (Save c) ∈
    (run (cmd_setup strip len py_float path_exists Config_load set_network
            Validator ValidatorMore ans)).2 ->
  let loaded :=
    set_network (if String.eqb (strip (network_choice ans)) "2"
                 then "mainnet-beta" else "devnet") Config_load in
  let key := strip (key_input ans) in
  c !! "private_key" =
  if String.eqb key "" then loaded !! "private_key"
  else if endswith key ".json" then
    if path_exists key then
      match login_from_file_result (ValidatorMore loaded) key with
      | Ret true => Some (login_from_file_private_key (ValidatorMore loaded) key)
      | _ => loaded !! "private_key"
      end
    else loaded !! "private_key"
  else Some (PStr key).
Proof.
  intros Hc. cbn zeta. saved_config ans c Hc.
  rewrite !filter_lookup_ne by discriminate.
  rewrite !lookup_insert_ne by discriminate.
  match goal with
  | |- context [if ?b && _ && _ then _ else _] => destruct (b && _ && _)
  end; rewrite ?lookup_insert_ne by discriminate.
  all: destruct (String.eqb (strip (key_input ans)) ""); [reflexivity|].
  all: destruct (endswith (strip (key_input ans)) ".json");
    [|by rewrite lookup_insert_eq].
  all: destruct (path_exists (strip (key_input ans))); [|reflexivity].
  all: destruct (login_from_file_result _ _) as [[|]|]; try reflexivity.
  all: by rewrite lookup_insert_eq.
Qed.

(** X25: a referrer is stored only when its length is between 32 and 44,
    bounds included; otherwise the referrer stays as it was. *)
Theorem cmd_setup_referrer_bounds (ans : Answers) (c : gmap string pyval) :
  Core (Save c) ∈
    (run (cmd_setup strip len py_float path_exists Config_load set_network
            Validator ValidatorMore ans)).2 ->
  let loaded :=
    set_network (if String.eqb (strip (network_choice ans)) "2"
                 then "mainnet-beta" else "devnet") Config_load in
  let referrer := strip (referrer_input ans) in
  c !! "referrer" =
  if negb (String.eqb referrer "") && Nat.leb 32 (len referrer) && Nat.leb (len referrer) 44
  then Some (PStr referrer) else loaded !! "referrer".
Proof.
  intros Hc. cbn zeta. saved_config ans c Hc.
  rewrite !filter_lookup_ne by discriminate.
  rewrite !lookup_insert_ne by discriminate.
  match goal with
  | |- context [if ?b && _ && _ then _ else _] => destruct (b && _ && _)
  end; [by rewrite lookup_insert_eq|].
  repeat match goal with
         | |- context [if ?b then _ else _] => destruct b
         | |- context [match ?o with Ret _ => _ | Raise _ => _ end] => destruct o
         end;
    rewrite ?lookup_insert_ne by discriminate; reflexivity.
Qed.

End SetupFacts.

(** ** Instances *)

(** The wizard run on [SampleMore.answers]. *)
Lemma wizard_saved_in_trace :
  Core (Save SampleMore.wizard_saved) ∈
    (run (cmd_setup (fun s => s) String.length SampleMore.floats (fun _ => false)
            Sample.config SampleMore.set_network (fun _ => Sample.api [])
            (fun _ => SampleMore.queries) SampleMore.answers)).2.
Proof.
  destruct (cmd_setup_saved (fun s => s) String.length SampleMore.floats (fun _ => false)
              Sample.config SampleMore.set_network (fun _ => Sample.api [])
              (fun _ => SampleMore.queries) SampleMore.answers)
    as (before & Hrun & _).
  cbn zeta in Hrun. rewrite Hrun.
  match goal with
  | |- _ ∈ (if ?b then _ else _).2 => destruct b; cbn [snd]
  end;
    (apply elem_of_app; right; apply elem_of_cons; left;
     apply (f_equal (fun c => Core (Save c))); reflexivity).
Qed.

(** On [Sample.config], which names no referrer, the wizard saves and then
    fails at the closing panel. *)
Example cmd_setup_without_referrer :
  exists before : list event,
    run (cmd_setup (fun s => s) String.length SampleMore.floats (fun _ => false)
           Sample.config SampleMore.set_network (fun _ => Sample.api [])
           (fun _ => SampleMore.queries) SampleMore.answers) =
    (Raise AttributeError, before ++ [Core (Save SampleMore.wizard_saved)]).
Proof.
  destruct (cmd_setup_saved (fun s => s) String.length SampleMore.floats (fun _ => false)
              Sample.config SampleMore.set_network (fun _ => Sample.api [])
              (fun _ => SampleMore.queries) SampleMore.answers)
    as (before & Hrun & _).
  exists before. cbn zeta in Hrun. rewrite Hrun.
  match goal with
  | |- (if ?b then _ else _) = _ => replace b with false by (vm_compute; reflexivity)
  end.
  apply (f_equal (fun c => (Raise AttributeError, before ++ [Core (Save c)]))).
  reflexivity.
Qed.

(** With a referrer in the stored configuration the wizard ends with 0. *)
Example cmd_setup_with_referrer :
  exists (final : gmap string pyval) (before : list event),
    run (cmd_setup (fun s => s) String.length SampleMore.floats (fun _ => false)
           SampleMore.config_with_referrer SampleMore.set_network (fun _ => Sample.api [])
           (fun _ => SampleMore.queries) SampleMore.answers) =
    (Ret 0, before ++ [Core (Save final); Show (PanelSetupComplete final)]).
Proof.
  destruct (cmd_setup_saved (fun s => s) String.length SampleMore.floats (fun _ => false)
              SampleMore.config_with_referrer SampleMore.set_network
              (fun _ => Sample.api []) (fun _ => SampleMore.queries) SampleMore.answers)
    as (before & Hrun & _).
  eexists _, before. cbn zeta in Hrun. rewrite Hrun.
  match goal with
  | |- (if ?b then _ else _) = _ => replace b with true by (vm_compute; reflexivity)
  end.
  reflexivity.
Qed.

Lemma cmd_setup_touches_only_its_attributes_witness :
  SampleMore.wizard_saved !! "max_concurrent_rounds" =
  SampleMore.set_network "mainnet-beta" Sample.config !! "max_concurrent_rounds".
Proof.
  apply (cmd_setup_touches_only_its_attributes (fun s => s) String.length
           SampleMore.floats (fun _ => false) Sample.config SampleMore.set_network
           (fun _ => Sample.api []) (fun _ => SampleMore.queries) SampleMore.answers
           SampleMore.wizard_saved "max_concurrent_rounds" wizard_saved_in_trace).
  rewrite !not_elem_of_cons. split_and!; try discriminate. apply not_elem_of_nil.
Defined.

Lemma cmd_setup_automation_only_n_disables_witness :
  SampleMore.wizard_saved !! "auto_claim" = Some (PBool true) /\
  SampleMore.wizard_saved !! "auto_start" = Some (PBool false) /\
  SampleMore.wizard_saved !! "auto_validate" = Some (PBool true).
Proof.
  exact (cmd_setup_automation_only_n_disables (fun s => s) String.length
           SampleMore.floats (fun _ => false) Sample.config SampleMore.set_network
           (fun _ => Sample.api []) (fun _ => SampleMore.queries) SampleMore.answers
           SampleMore.wizard_saved wizard_saved_in_trace).
Defined.

Lemma cmd_setup_reward_filters_witness :
  SampleMore.wizard_saved !! "min_reward" = Some (PFloat 0%float) /\
  SampleMore.wizard_saved !! "max_reward" =
    SampleMore.set_network "mainnet-beta" Sample.config !! "max_reward".
Proof.
  exact (cmd_setup_reward_filters (fun s => s) String.length
           SampleMore.floats (fun _ => false) Sample.config SampleMore.set_network
           (fun _ => Sample.api []) (fun _ => SampleMore.queries) SampleMore.answers
           SampleMore.wizard_saved wizard_saved_in_trace).
Defined.

Lemma cmd_setup_private_key_witness :
  SampleMore.wizard_saved !! "private_key" = Some (PStr "9qRt").
Proof.
  exact (cmd_setup_private_key (fun s => s) String.length
           SampleMore.floats (fun _ => false) Sample.config SampleMore.set_network
           (fun _ => Sample.api []) (fun _ => SampleMore.queries) SampleMore.answers
           SampleMore.wizard_saved wizard_saved_in_trace).
Defined.

Lemma cmd_setup_referrer_bounds_witness :
  SampleMore.wizard_saved !! "referrer" =
  SampleMore.set_network "mainnet-beta" Sample.config !! "referrer".
Proof.
  exact (cmd_setup_referrer_bounds (fun s => s) String.length
           SampleMore.floats (fun _ => false) Sample.config SampleMore.set_network
           (fun _ => Sample.api []) (fun _ => SampleMore.queries) SampleMore.answers
           SampleMore.wizard_saved wizard_saved_in_trace).
Defined.

End CliSetupFacts.
